(** * continuedev.core.sdk: the SDK handed to a Step

    A shallow embedding of [continuedev/core/sdk.py] (the classes [Models]
    and [ContinueSDK]) and the properties of it that the specification
    states.

    The SDK is a facade: almost every method is a short sequence of calls
    to collaborators (the IDE protocol server [self.ide], the autopilot
    [self.__autopilot], [os.path]).  A method is therefore embedded as a
    _program_: a finite tree of collaborator calls, reads and writes of the
    Python objects the SDK touches itself, and a final [return] or [raise].
    Programs are run against an arbitrary environment by [interp], which
    also records the calls that were made, so that statements such as
    "never calls [run_step]" or "fetches the secret once" are statements
    about the recorded trace. *)

From Stdlib Require Import ZArith Lia Ascii.
From stdpp Require Import base strings list gmap.

Set Default Proof Using "Type".

Local Open Scope string_scope.
Local Open Scope list_scope.

(** ** Python strings and [os.path] (POSIX flavour) *)

Module Py.

(** [s.startswith(c)] for a one-character [c]. *)
Definition startswith (s : string) (c : ascii) : bool :=
  match s with
  | String a _ => bool_decide (a = c)
  | EmptyString => false
  end.

(** [s.endswith(c)] for a one-character [c]. *)
Fixpoint endswith (s : string) (c : ascii) : bool :=
  match s with
  | EmptyString => false
  | String a EmptyString => bool_decide (a = c)
  | String _ rest => endswith rest c
  end.

(** Truthiness of a string: [if s] holds for a non-empty [s]. *)
Definition truthy (s : string) : bool :=
  match s with
  | EmptyString => false
  | String _ _ => true
  end.

(** [l[i]] on a Python list: a negative index counts from the end, an
    index outside [-len, len) raises [IndexError] (here [None]).  The
    result is the position as a natural number. *)
Definition index {A} (l : list A) (i : Z) : option nat :=
  let n := Z.of_nat (length l) in
  if bool_decide (0 <= i < n)%Z then Some (Z.to_nat i)
  else if bool_decide (- n <= i < 0)%Z then Some (Z.to_nat (n + i))
  else None.

(** The line feed of a Python string literal, [\n]. *)
Definition nl : string := String "010"%char EmptyString.

End Py.

Module os_path.

Definition sep : ascii := "/"%char.

(** [posixpath.isabs] *)
Definition isabs (s : string) : bool := Py.startswith s sep.

(** One turn of the loop of [posixpath.join]. *)
Definition join_step (path b : string) : string :=
  if Py.startswith b sep then b
  else if negb (Py.truthy path) || Py.endswith path sep then path +:+ b
  else path +:+ String sep EmptyString +:+ b.

(** [posixpath.join(a, *p)] *)
Definition join (a : string) (p : list string) : string :=
  foldl join_step a p.

Arguments join : simpl never.

End os_path.

(** ** Data model *)

(** [ChatMessageRole] is an alias for a set of string literals; the SDK
    passes roles around as strings. *)
Definition ChatMessageRole := string.

Record ChatMessage := mkChatMessage {
  content : string;
  role : ChatMessageRole
}.

(** Modelled from the spec: [ChatMessage] and [ChatMessageRole] are
    declared in [core/main.py], which is not part of the sources.  The spec
    gives the role as [enum{user, assistant, system, ...}]: the three named
    strings are roles, and which other strings are roles is left open
    ([more_roles]).  Constructing a [ChatMessage] validates its role. *)
Definition named_roles : list ChatMessageRole := ["user"; "assistant"; "system"].

Definition is_role (more_roles : ChatMessageRole -> bool)
    (r : ChatMessageRole) : bool :=
  existsb (String.eqb r) named_roles || more_roles r.

Record Position := mkPosition { line : Z; character : Z }.

Record Range := mkRange { range_start : Position; range_end : Position }.

Record RangeInFile := mkRangeInFile {
  rif_filepath : string;
  rif_range : Range
}.

(** The tagged union of [models/filesystem_edit.py]. *)
Inductive FileSystemEdit : Type :=
| FileEdit (filepath : string) (range : Range) (replacement : string)
| AddFile (filepath : string) (content : option string)
| DeleteFile (filepath : string)
| AddDirectory (path : string)
| DeleteDirectory (path : string).

(** What distinguishes the Step classes the SDK instantiates. *)
Inductive StepBody : Type :=
| FileSystemEditBody (edit : FileSystemEdit)
| WaitForUserConfirmationBody (prompt : string)
| ShellCommandsBody (cmds : list string) (cwd : option string)
    (handle_error : bool)
| Gpt35EditCodeBody (range_in_files : list RangeInFile) (user_input : string).

(** A Step: the fields of the base class and the body of the subclass.
    [name = None] stands for "keyword not passed" (the class default). *)
Record Step := mkStep {
  body : StepBody;
  name : option string;
  description : option string;
  chat_context : list ChatMessage
}.

(** Modelled from the spec: [core/observation.py] is not part of the
    sources; an Observation is "the result value produced by executing a
    Step", and the shell step's observation carries its captured [text]. *)
Inductive Observation : Type :=
| EmptyObservation
| TextObservation (text : string).

Record HistoryNode := mkHistoryNode {
  step : Step;
  observation : option Observation
}.

Record History := mkHistory {
  timeline : list HistoryNode;
  current_index : Z
}.

(** Modelled from the spec: [core/config.py] is not part of the sources; a
    configuration is the parsed document of the matched file, and
    [ContinueConfig()] is the "default/empty configuration object". *)
Definition ContinueConfig := gmap string string.
Definition ContinueConfig_default : ContinueConfig := ∅.

(** The two LLM clients the SDK constructs. *)
Inductive LLMClass := HuggingFaceInferenceAPI | OpenAI.

(** A constructed client.  [object_id] is the identity of the Python
    object: two clients are the same instance iff they have the same id. *)
Record LLM := mkLLM {
  object_id : nat;
  llm_class : LLMClass;
  api_key : string;
  default_model : option string
}.

Inductive Exn : Type :=
| NotImplementedError
| IndexError
| ValidationError
| AttributeError (attr : string)
| RuntimeError (msg : string)
| ContinueCustomException (message title : string) (with_step : option Step)
| CollaboratorError (msg : string).

(** The Python objects that the code of [sdk.py] reads and mutates itself:
    the autopilot's [History] (shared, mutated in place), the instance
    [__dict__] of [Models] in which [cached_property] stores its values,
    the allocator of object identities, and whether the asyncio event loop
    of the calling thread is running. *)
Record Heap := mkHeap {
  history : History;
  models_dict : gmap string LLM;
  next_object_id : nat;
  loop_running : bool
}.

(** ** Collaborator calls *)

(** The methods of [AbstractIdeProtocolServer] that the SDK awaits. *)
Module Ide.
Inductive call : Type -> Type :=
| getWorkspaceDirectory : call string
| setFileOpen (filepath : string) : call unit
| readFile (filepath : string) : call string
| readRangeInFile (rif : RangeInFile) : call string
| applyFileSystemEdit (edit : FileSystemEdit) : call unit
| getUserSecret (env_var : string) : call string
| getHighlightedCode : call (list RangeInFile).
End Ide.

(** The methods of the autopilot that the SDK calls. *)
Module Autopilot.
Inductive call : Type -> Type :=
| _run_singular_step (s : Step) : call Observation
| wait_for_user_input : call string
| update_subscribers : call unit.
End Autopilot.

(** Reads of the machine the process runs on: the [workspace_directory]
    attribute of the IDE object, [os.path.exists] and [load_config]. *)
Module Os.
Inductive query : Type -> Type :=
| workspace_directory : query string
| path_exists (p : string) : query bool
| load_config (p : string) : query ContinueConfig.
End Os.

Inductive call : Type -> Type :=
| ide {X} (c : Ide.call X) : call X
| autopilot {X} (c : Autopilot.call X) : call X
| os {X} (q : Os.query X) : call X.

(** ** Programs *)

Inductive Prog (R : Type) : Type :=
| Ret (r : R)
| Raise (e : Exn)
| Call {X : Type} (c : call X) (k : X -> Prog R)
| GetHeap (k : Heap -> Prog R)
| PutHeap (h : Heap) (k : Prog R).

Arguments Ret {R} r.
Arguments Raise {R} e.
Arguments Call {R X} c k.
Arguments GetHeap {R} k.
Arguments PutHeap {R} h k.

Fixpoint bind {A B} (p : Prog A) (f : A -> Prog B) : Prog B :=
  match p with
  | Ret a => f a
  | Raise e => Raise e
  | Call c k => Call c (fun x => bind (k x) f)
  | GetHeap k => GetHeap (fun h => bind (k h) f)
  | PutHeap h k => PutHeap h (bind k f)
  end.

#[global] Instance Prog_ret : MRet Prog := fun _ a => Ret a.
#[global] Instance Prog_bind : MBind Prog := fun _ _ f p => bind p f.

(** [await self.ide.m(...)], [await self.__autopilot.m(...)], ... *)
Definition await {X} (c : call X) : Prog X := Call c Ret.
Definition get_heap : Prog Heap := GetHeap Ret.
Definition put_heap (h : Heap) : Prog unit := PutHeap h (Ret tt).

(** ** Environments and the interpreter *)

Record World (H : Type) := mkWorld {
  heap : Heap;
  host : H
}.
Arguments mkWorld {H} heap host.
Arguments heap {H} w.
Arguments host {H} w.

(** An environment answers every collaborator call, by a value or by an
    exception.  The IDE is reached over its protocol and holds no
    reference to the objects of the Python process: an IDE call changes
    the host state only.  The machine reads are observations of the host
    state.  The autopilot owns the History and runs Steps, so its methods
    may change the whole world. *)
Class Environment (H : Type) := {
  on_ide : forall X, Ide.call X -> H -> (Exn + X) * H;
  on_os : forall X, Os.query X -> H -> Exn + X;
  on_autopilot : forall X, Autopilot.call X -> World H -> (Exn + X) * World H
}.
Arguments on_ide {H _ X} c h.
Arguments on_os {H _ X} q h.
Arguments on_autopilot {H _ X} c w.

(** A call that was made, with the answer it got. *)
Inductive event : Type :=
| Ev {X : Type} (c : call X) (answer : Exn + X).

Record Outcome (H R : Type) := mkOutcome {
  result : Exn + R;
  final : World H;
  trace : list event
}.
Arguments mkOutcome {H R} result final trace.
Arguments result {H R} o.
Arguments final {H R} o.
Arguments trace {H R} o.

Section Interp.
Context {H : Type} `{Environment H}.

Definition handle {X} (c : call X) (w : World H) : (Exn + X) * World H :=
  match c with
  | ide c => let '(r, h) := on_ide c (host w) in (r, mkWorld (heap w) h)
  | autopilot c => on_autopilot c w
  | os q => (on_os q (host w), w)
  end.

(** Running a program: calls are answered by the environment in program
    order; an exception, raised by the program or by a collaborator,
    ends the run. *)
Fixpoint interp {R} (p : Prog R) (w : World H) : Outcome H R :=
  match p with
  | Ret r => mkOutcome (inr r) w []
  | Raise e => mkOutcome (inl e) w []
  | Call c k =>
      match handle c w with
      | (inl e, w') => mkOutcome (inl e) w' [Ev c (inl e)]
      | (inr x, w') =>
          let o := interp (k x) w' in
          mkOutcome (result o) (final o) (Ev c (inr x) :: trace o)
      end
  | GetHeap k => interp (k (heap w)) w
  | PutHeap h k => interp k (mkWorld h (host w))
  end.

End Interp.

(** *** Reading a trace *)

(** The Steps that were handed to the autopilot, in order. *)
Definition step_of (e : event) : option Step :=
  match e with
  | Ev (autopilot (Autopilot._run_singular_step s)) _ => Some s
  | _ => None
  end.

Definition steps_run (t : list event) : list Step := omap step_of t.

Definition is_autopilot_event (e : event) : bool :=
  match e with
  | Ev (autopilot _) _ => true
  | _ => false
  end.

(** The number of [getUserSecret] requests sent to the host. *)
Definition is_secret_fetch (e : event) : bool :=
  match e with
  | Ev (ide (Ide.getUserSecret _)) _ => true
  | _ => false
  end.

Definition secret_fetches (t : list event) : nat :=
  length (filter (fun e => is_secret_fetch e = true) t).

(** The edits that were applied through the host's edit interface. *)
Definition host_edit_of (e : event) : option FileSystemEdit :=
  match e with
  | Ev (ide (Ide.applyFileSystemEdit ed)) _ => Some ed
  | _ => None
  end.

Definition host_edits (t : list event) : list FileSystemEdit :=
  omap host_edit_of t.

(** The answers of the host, as trace events, to reading each range. *)
Definition range_reads (rifs : list RangeInFile) (codes : list string)
    : list event :=
  zip_with (fun rif code => Ev (ide (Ide.readRangeInFile rif)) (inr code))
    rifs codes.

(** A run ended by the failure of a collaborator call. *)
Definition failed_by_last_call {H R} (o : Outcome H R) : Prop :=
  exists (e : Exn) (X : Type) (c : call X),
    result o = inl e /\ last (trace o) = Some (Ev c (inl e)).

(** ** Step constructors, with the keyword arguments the SDK passes *)

Definition FileSystemEditStep (edit : FileSystemEdit)
    (name description : option string) : Step :=
  mkStep (FileSystemEditBody edit) name description [].

Definition WaitForUserConfirmationStep (prompt : string) : Step :=
  mkStep (WaitForUserConfirmationBody prompt) None None [].

Definition ShellCommandsStep (cmds : list string) (cwd : option string)
    (name description : option string) (handle_error : bool) : Step :=
  mkStep (ShellCommandsBody cmds cwd handle_error) name description [].

Definition Gpt35EditCodeStep (range_in_files : list RangeInFile)
    (user_input : string) (name description : option string) : Step :=
  mkStep (Gpt35EditCodeBody range_in_files user_input) name description [].

(** [**({'name': name} if name else {})]: the keyword is passed only for a
    name that is neither [None] nor empty. *)
Definition name_kwarg (name : option string) : option string :=
  match name with
  | Some n => if Py.truthy n then Some n else None
  | None => None
  end.

(** [observation.text] *)
Definition text_of (o : Observation) : Prog string :=
  match o with
  | TextObservation t => Ret t
  | EmptyObservation => Raise (AttributeError "text")
  end.

(** ** Updates of the heap *)

Definition set_history (h : Heap) (hist : History) : Heap :=
  mkHeap hist (models_dict h) (next_object_id h) (loop_running h).

Definition set_models_dict (h : Heap) (d : gmap string LLM) : Heap :=
  mkHeap (history h) d (next_object_id h) (loop_running h).

Definition set_next_object_id (h : Heap) (n : nat) : Heap :=
  mkHeap (history h) (models_dict h) n (loop_running h).

(** [step.chat_context.append(msg)] on the Step of a node. *)
Definition append_chat_context (msg : ChatMessage) (node : HistoryNode)
    : HistoryNode :=
  let s := step node in
  mkHistoryNode
    (mkStep (body s) (name s) (description s) (chat_context s ++ [msg]))
    (observation node).

(** ** class ContinueSDK *)

Module ContinueSDK.
Section Methods.

(** Functions of the repository that [sdk.py] calls and that are declared
    outside the sources at hand: [FileEdit.from_append],
    [RangeInFile.from_entire_file] and [History.to_chat_history]. *)
Variable from_append : string -> string -> string -> FileSystemEdit.
Variable from_entire_file : string -> string -> RangeInFile.
Variable to_chat_history : History -> list ChatMessage.

(** What the declarations outside the sources may or may not admit: roles
    besides the named ones in a [ChatMessage], and a missing content in an
    [AddFile] (the SDK's signature passes [Union[str, None]] on). *)
Variable more_roles : ChatMessageRole -> bool.
Variable AddFile_admits_None : bool.

(** [ChatMessage(content=content, role=role)] for a role the caller
    supplies. *)
Definition new_ChatMessage (content : string) (role : ChatMessageRole)
    : Prog ChatMessage :=
  if is_role more_roles role then Ret (mkChatMessage content role)
  else Raise ValidationError.

(** [AddFile(filepath=filepath, content=content)] *)
Definition new_AddFile (filepath : string) (content : option string)
    : Prog FileSystemEdit :=
  match content with
  | Some _ => Ret (AddFile filepath content)
  | None =>
      if AddFile_admits_None then Ret (AddFile filepath None)
      else Raise ValidationError
  end.

Definition _ensure_absolute_path (path : string) : Prog string :=
  if os_path.isabs path then Ret path
  else
    wd ← await (ide Ide.getWorkspaceDirectory);
    Ret (os_path.join wd [path]).

Definition run_step (s : Step) : Prog Observation :=
  await (autopilot (Autopilot._run_singular_step s)).

Definition apply_filesystem_edit (edit : FileSystemEdit)
    (name description : option string) : Prog Observation :=
  run_step (FileSystemEditStep edit (name_kwarg name) description).

Definition wait_for_user_input : Prog string :=
  await (autopilot Autopilot.wait_for_user_input).

Definition wait_for_user_confirmation (prompt : string) : Prog Observation :=
  run_step (WaitForUserConfirmationStep prompt).

Definition run (commands : list string + string) (cwd : option string)
    (name description : option string) (handle_error : bool) : Prog string :=
  let commands := match commands with inl l => l | inr c => [c] end in
  o ← run_step
        (ShellCommandsStep commands cwd (name_kwarg name) description
           handle_error);
  text_of o.

Definition edit_file (filename prompt : string)
    (name description : option string) (range : option Range) : Prog unit :=
  filepath ← _ensure_absolute_path filename;
  _ ← await (ide (Ide.setFileOpen filepath));
  contents ← await (ide (Ide.readFile filepath));
  _ ← run_step
        (Gpt35EditCodeStep
           [match range with
            | Some r => mkRangeInFile filepath r
            | None => from_entire_file filepath contents
            end]
           prompt (name_kwarg name) description);
  Ret tt.

Definition append_to_file (filename content : string) : Prog unit :=
  filepath ← _ensure_absolute_path filename;
  previous_content ← await (ide (Ide.readFile filepath));
  let file_edit := from_append filepath previous_content content in
  await (ide (Ide.applyFileSystemEdit file_edit)).

Definition add_file (filename : string) (content : option string)
    : Prog Observation :=
  filepath ← _ensure_absolute_path filename;
  edit ← new_AddFile filepath content;
  run_step (FileSystemEditStep edit None None).

Definition delete_file (filename : string) : Prog Observation :=
  filepath ← _ensure_absolute_path filename;
  run_step (FileSystemEditStep (DeleteFile filename) None None).

Definition add_directory (path : string) : Prog Observation :=
  filepath ← _ensure_absolute_path path;
  run_step (FileSystemEditStep (AddDirectory path) None None).

Definition delete_directory (path : string) : Prog Observation :=
  filepath ← _ensure_absolute_path path;
  run_step (FileSystemEditStep (DeleteDirectory path) None None).

Definition get_user_secret (env_var prompt : string) : Prog string :=
  await (ide (Ide.getUserSecret env_var)).

(** The two candidate paths of [config]. *)
Definition yaml_path (dir : string) : string :=
  os_path.join dir [".continue"; "config.yaml"].

Definition json_path (dir : string) : string :=
  os_path.join dir [".continue"; "config.json"].

Definition config : Prog ContinueConfig :=
  dir ← await (os Os.workspace_directory);
  let yaml_path := yaml_path dir in
  let json_path := json_path dir in
  yaml_exists ← await (os (Os.path_exists yaml_path));
  if yaml_exists : bool then await (os (Os.load_config yaml_path))
  else
    json_exists ← await (os (Os.path_exists json_path));
    if json_exists : bool then await (os (Os.load_config json_path))
    else Ret ContinueConfig_default.

Definition set_loading_message (message : string) : Prog unit :=
  Raise NotImplementedError.

Definition raise_exception (message title : string)
    (with_step : option Step) : Prog unit :=
  Raise (ContinueCustomException message title with_step).

(** The default of the [role] parameter, as the source spells it. *)
Definition add_chat_context_default_role : ChatMessageRole := "assistent".

(** [role = None] stands for a call that omits the argument.  Python
    evaluates [timeline[current_index].step.chat_context.append] before the
    argument of the call: the subscript is checked first, then the message
    is constructed, then it is appended. *)
Definition add_chat_context (content : string)
    (role : option ChatMessageRole) : Prog unit :=
  let role := default add_chat_context_default_role role in
  h ← get_heap;
  let hist := history h in
  match Py.index (timeline hist) (current_index hist) with
  | None => Raise IndexError
  | Some i =>
      msg ← new_ChatMessage content role;
      put_heap
        (set_history h
           (mkHistory
              (alter (append_chat_context msg) i (timeline hist))
              (current_index hist)))
  end.

(** The f-string of [get_chat_context], in a message whose role is the
    named role [user]. *)
Definition highlighted_code_message (code : string) : ChatMessage :=
  mkChatMessage
    ("The following code is highlighted:" +:+ Py.nl +:+ "```" +:+ Py.nl
       +:+ code +:+ Py.nl +:+ "```")
    "user".

(** The [for rif in highlighted_code] loop. *)
Fixpoint for_highlighted_code (highlighted_code : list RangeInFile)
    (history_context : list ChatMessage) : Prog (list ChatMessage) :=
  match highlighted_code with
  | [] => Ret history_context
  | rif :: rest =>
      code ← await (ide (Ide.readRangeInFile rif));
      for_highlighted_code rest
        (history_context ++ [highlighted_code_message code])
  end.

(** [to_chat_history] is taken to build a list of its own, so that the
    appends of the loop do not reach into the History. *)
Definition get_chat_context : Prog (list ChatMessage) :=
  h ← get_heap;
  let history_context := to_chat_history (history h) in
  highlighted_code ← await (ide Ide.getHighlightedCode);
  for_highlighted_code highlighted_code history_context.

Definition update_ui : Prog unit :=
  await (autopilot Autopilot.update_subscribers).

End Methods.
End ContinueSDK.

(** ** class Models *)

Module Models.

(** [functools.cached_property.__get__]: look the attribute up in the
    instance [__dict__]; on a miss call the function and store its value.
    Nothing is stored when the function raises. *)
Definition cached_property (attrname : string) (func : Prog LLM) : Prog LLM :=
  h ← get_heap;
  match models_dict h !! attrname with
  | Some val => Ret val
  | None =>
      val ← func;
      h' ← get_heap;
      _ ← put_heap (set_models_dict h' (<[attrname := val]> (models_dict h')));
      Ret val
  end.

(** [asyncio.get_event_loop().run_until_complete(coro)]: refuses to run
    on a loop that is already running, else drives [coro] to its end. *)
Definition run_until_complete {R} (coro : Prog R) : Prog R :=
  h ← get_heap;
  if loop_running h then Raise (RuntimeError "This event loop is already running")
  else coro.

(** Constructing a client allocates a new object. *)
Definition new_llm (cls : LLMClass) (api_key : string)
    (default_model : option string) : Prog LLM :=
  h ← get_heap;
  _ ← put_heap (set_next_object_id h (S (next_object_id h)));
  Ret (mkLLM (next_object_id h) cls api_key default_model).

Definition load_starcoder : Prog LLM :=
  api_key ← ContinueSDK.get_user_secret "HUGGING_FACE_TOKEN"
              "Please add your Hugging Face token to the .env file";
  new_llm HuggingFaceInferenceAPI api_key None.

Definition starcoder : Prog LLM :=
  cached_property "starcoder" (run_until_complete load_starcoder).

Definition load_gpt35 : Prog LLM :=
  api_key ← ContinueSDK.get_user_secret "OPENAI_API_KEY"
              "Please add your OpenAI API key to the .env file";
  new_llm OpenAI api_key (Some "gpt-3.5-turbo").

Definition gpt35 : Prog LLM :=
  cached_property "gpt35" (run_until_complete load_gpt35).

(** The accessors of the class, to speak of "each accessor". *)
Inductive accessor := Starcoder | Gpt35.

Definition attrname (a : accessor) : string :=
  match a with
  | Starcoder => "starcoder"
  | Gpt35 => "gpt35"
  end.

Definition loader (a : accessor) : Prog LLM :=
  match a with
  | Starcoder => load_starcoder
  | Gpt35 => load_gpt35
  end.

Definition access (a : accessor) : Prog LLM :=
  match a with
  | Starcoder => starcoder
  | Gpt35 => gpt35
  end.

(** The environment variable whose secret an accessor asks for, and the
    client it constructs from the secret. *)
Definition secret_name (a : accessor) : string :=
  match a with
  | Starcoder => "HUGGING_FACE_TOKEN"
  | Gpt35 => "OPENAI_API_KEY"
  end.

Definition client (a : accessor) (id : nat) (key : string) : LLM :=
  match a with
  | Starcoder => mkLLM id HuggingFaceInferenceAPI key None
  | Gpt35 => mkLLM id OpenAI key (Some "gpt-3.5-turbo")
  end.

End Models.

(** ** An in-memory environment

    A small host on which the methods can be run: the IDE keeps a
    workspace root, file contents, stored secrets, the highlighted ranges
    and a log of what it was asked to do; the autopilot records every Step
    it is given. *)

Module InMemory.

Record Machine := mkMachine {
  workspace : string;
  files : gmap string string;
  configs : gmap string ContinueConfig;
  secrets : gmap string string;
  highlighted : list RangeInFile;
  applied : list FileSystemEdit
}.

Definition set_applied (m : Machine) (l : list FileSystemEdit) : Machine :=
  mkMachine (workspace m) (files m) (configs m) (secrets m) (highlighted m) l.

Definition lookup_or_fail {A} (what : string) (o : option A) : Exn + A :=
  match o with
  | Some a => inr a
  | None => inl (CollaboratorError what)
  end.

Definition ide_server {X} (c : Ide.call X) (m : Machine) : (Exn + X) * Machine :=
  match c with
  | Ide.getWorkspaceDirectory => (inr (workspace m), m)
  | Ide.setFileOpen _ => (inr tt, m)
  | Ide.readFile p => (lookup_or_fail "no such file" (files m !! p), m)
  | Ide.readRangeInFile rif =>
      (lookup_or_fail "no such file" (files m !! rif_filepath rif), m)
  | Ide.applyFileSystemEdit e => (inr tt, set_applied m (applied m ++ [e]))
  | Ide.getUserSecret v => (lookup_or_fail "no such secret" (secrets m !! v), m)
  | Ide.getHighlightedCode => (inr (highlighted m), m)
  end.

Definition machine {X} (q : Os.query X) (m : Machine) : Exn + X :=
  match q with
  | Os.workspace_directory => inr (workspace m)
  | Os.path_exists p =>
      inr (bool_decide (is_Some (files m !! p))
           || bool_decide (is_Some (configs m !! p)))
  | Os.load_config p => lookup_or_fail "cannot load" (configs m !! p)
  end.

(** Modelled from the spec: [Autopilot._run_singular_step] is not part of
    the sources; the spec has it append one HistoryNode for the Step, set
    [current_index] to the new last position and return the Observation. *)
Definition record_step (s : Step) (w : World Machine) : World Machine :=
  let hist := history (heap w) in
  let tl := timeline hist ++ [mkHistoryNode s (Some EmptyObservation)] in
  mkWorld
    (set_history (heap w) (mkHistory tl (Z.of_nat (length tl) - 1)))
    (host w).

Definition autopilot_object {X} (c : Autopilot.call X) (w : World Machine)
    : (Exn + X) * World Machine :=
  match c with
  | Autopilot._run_singular_step s => (inr EmptyObservation, record_step s w)
  | Autopilot.wait_for_user_input => (inr "yes", w)
  | Autopilot.update_subscribers => (inr tt, w)
  end.

#[global] Instance environment : Environment Machine := {
  on_ide := @ide_server;
  on_os := @machine;
  on_autopilot := @autopilot_object
}.

(** Stand-ins for the three functions the SDK takes from elsewhere. *)
Definition from_append (filepath previous_content content : string)
    : FileSystemEdit :=
  let eof := mkPosition 0 (Z.of_nat (String.length previous_content)) in
  FileEdit filepath (mkRange eof eof) content.

Definition from_entire_file (filepath contents : string) : RangeInFile :=
  mkRangeInFile filepath
    (mkRange (mkPosition 0 0)
       (mkPosition 0 (Z.of_nat (String.length contents)))).

Definition to_chat_history (h : History) : list ChatMessage :=
  flat_map (fun node => chat_context (step node)) (timeline h).

(** The strict reading of the declarations: no role besides the named
    ones. *)
Definition only_named_roles : ChatMessageRole -> bool := fun _ => false.

(** A workspace rooted at [/ws] with one file, one stored secret and two
    highlighted ranges; the History holds two executed Steps and the second
    one is the current one. *)
Definition whole : Range := mkRange (mkPosition 0 0) (mkPosition 0 5).

Definition demo_machine : Machine :=
  mkMachine "/ws"
    {[ "/ws/notes.txt" := "hello"; "/ws/main.py" := "pass" ]}
    {[ "/ws/.continue/config.json" := {[ "server_url" := "local" ]} ]}
    {[ "HUGGING_FACE_TOKEN" := "hf-token"; "OPENAI_API_KEY" := "sk-key" ]}
    [mkRangeInFile "/ws/main.py" whole; mkRangeInFile "/ws/notes.txt" whole]
    [].

Definition first_step : Step :=
  mkStep (ShellCommandsBody ["ls"] None true) None None
    [mkChatMessage "listing" "assistant"].

Definition second_step : Step :=
  mkStep (WaitForUserConfirmationBody "ok?") None None [].

Definition demo_history : History :=
  mkHistory
    [mkHistoryNode first_step (Some (TextObservation "notes.txt"));
     mkHistoryNode second_step None]
    1.

Definition demo_world : World Machine :=
  mkWorld (mkHeap demo_history ∅ 0 false) demo_machine.




(** The same world with nothing highlighted in the editor. *)
Definition nothing_highlighted : Machine :=
  mkMachine (workspace demo_machine) (files demo_machine)
    (configs demo_machine) (secrets demo_machine) [] (applied demo_machine).

Definition quiet_world : World Machine :=
  mkWorld (heap demo_world) nothing_highlighted.

(** The same world before any Step has run: an empty timeline, with the
    index at [-1]. *)
Definition fresh_world : World Machine :=
  mkWorld (mkHeap (mkHistory [] (-1)) ∅ 0 false) demo_machine.

(** The demo History addressed from the end. *)
Definition last_node_world : World Machine :=
  mkWorld (mkHeap (mkHistory (timeline demo_history) (-1)) ∅ 0 false)
    demo_machine.

(** The same world inside a running event loop. *)
Definition looping_world : World Machine :=
  mkWorld (mkHeap demo_history ∅ 0 true) demo_machine.

(** The same world with no secret stored. *)
Definition no_secrets_world : World Machine :=
  mkWorld (heap demo_world)
    (mkMachine (workspace demo_machine) (files demo_machine)
       (configs demo_machine) ∅ (highlighted demo_machine)
       (applied demo_machine)).

(** An autopilot that answers a shell Step with the text of its commands,
    one per line, and every other Step as [autopilot_object] does. *)
Definition echo (s : Step) : Observation :=
  match body s with
  | ShellCommandsBody cmds _ _ =>
      TextObservation (foldr (fun c out => c +:+ Py.nl +:+ out) "" cmds)
  | _ => EmptyObservation
  end.

Definition echo_autopilot {X} (c : Autopilot.call X) (w : World Machine)
    : (Exn + X) * World Machine :=
  match c with
  | Autopilot._run_singular_step s => (inr (echo s), record_step s w)
  | Autopilot.wait_for_user_input => (inr "yes", w)
  | Autopilot.update_subscribers => (inr tt, w)
  end.

Definition echo_environment : Environment Machine := {|
  on_ide := @ide_server;
  on_os := @machine;
  on_autopilot := @echo_autopilot
|}.

End InMemory.

(** * Properties *)

(** ** The interpreter and sequencing *)

Section InterpFacts.
Context {H : Type} `{Environment H}.

Lemma interp_bind {A B} (p : Prog A) (f : A -> Prog B) (w : World H) :
  interp (p ≫= f) w =
    match result (interp p w) with
    | inl e => mkOutcome (inl e) (final (interp p w)) (trace (interp p w))
    | inr a =>
        let o := interp (f a) (final (interp p w)) in
        mkOutcome (result o) (final o) (trace (interp p w) ++ trace o)
    end.
Proof.
  revert w. induction p as [r|e|X c k IH|k IH|h k IH]; intros w; cbn.
  - by destruct (interp (f r) w).
  - done.
  - destruct (handle c w) as [[e|x] w']; cbn; [done|].
    change (bind (k x) f) with (k x ≫= f). rewrite IH.
    by destruct (result (interp (k x) w')).
  - apply IH.
  - apply IH.
Qed.

End InterpFacts.

(** ** Path resolution *)

Section PathResolver.
Context {H : Type} `{Environment H}.
Import ContinueSDK.

(** Everything a call of [_ensure_absolute_path] can do. *)
Lemma ensure_absolute_path_outcome (w : World H) (p : string) :
  interp (_ensure_absolute_path p) w =
    if os_path.isabs p then mkOutcome (inr p) w []
    else
      match on_ide Ide.getWorkspaceDirectory (host w) with
      | (inr wd, h') =>
          mkOutcome (inr (os_path.join wd [p])) (mkWorld (heap w) h')
            [Ev (ide Ide.getWorkspaceDirectory) (inr wd)]
      | (inl e, h') =>
          mkOutcome (inl e) (mkWorld (heap w) h')
            [Ev (ide Ide.getWorkspaceDirectory) (inl e)]
      end.
Proof.
  unfold _ensure_absolute_path. destruct (os_path.isabs p); [done|].
  cbn. by destruct (on_ide Ide.getWorkspaceDirectory (host w)) as [[e|wd] h'].
Qed.

(** Resolving a path talks to the IDE only: the heap is left alone and no
    Step is run. *)
Lemma ensure_absolute_path_frame (w : World H) (p : string) :
  let o := interp (_ensure_absolute_path p) w in
  heap (final o) = heap w
  /\ Forall (fun e => is_autopilot_event e = false) (trace o).
Proof.
  cbn zeta. rewrite ensure_absolute_path_outcome.
  destruct (os_path.isabs p); [by split; [|constructor]|].
  destruct (on_ide Ide.getWorkspaceDirectory (host w)) as [[e|wd] h'];
    (split; [done|by repeat constructor]).
Qed.

(** C4: an absolute path is returned unchanged, without asking the host;
    a relative path is joined to the workspace root the host reports. *)
Theorem ensure_absolute_path_spec (w : World H) (p : string) :
  (os_path.isabs p = true ->
     interp (_ensure_absolute_path p) w = mkOutcome (inr p) w [])
  /\ (os_path.isabs p = false ->
      forall (root : string) (h' : H),
        on_ide Ide.getWorkspaceDirectory (host w) = (inr root, h') ->
        interp (_ensure_absolute_path p) w =
          mkOutcome (inr (os_path.join root [p])) (mkWorld (heap w) h')
            [Ev (ide Ide.getWorkspaceDirectory) (inr root)]).
Proof.
  rewrite ensure_absolute_path_outcome. split.
  - by intros ->.
  - intros -> root h' ->. done.
Qed.

End PathResolver.

(** ** Edits that go through the autopilot *)

Section EditDispatcher.
Context {H : Type} `{Environment H}.
Import ContinueSDK.

Lemma run_step_steps (w : World H) (s : Step) :
  steps_run (trace (interp (run_step s) w)) = [s].
Proof.
  unfold run_step, await. cbn.
  by destruct (on_autopilot (Autopilot._run_singular_step s) w) as [[e|x] w'].
Qed.

Lemma ensure_absolute_path_steps (w : World H) (p : string) :
  steps_run (trace (interp (_ensure_absolute_path p) w)) = [].
Proof.
  rewrite ensure_absolute_path_outcome. destruct (os_path.isabs p); [done|].
  by destruct (on_ide Ide.getWorkspaceDirectory (host w)) as [[e|wd] h'].
Qed.

(** The shape shared by [add_file], [delete_file], [add_directory] and
    [delete_directory]: resolve, then run the Step built by [mk].  One Step
    is run when the resolution completes, none when the host fails it. *)
Lemma resolve_then_run_step (w : World H) (p : string) (mk : string -> Step) :
  steps_run
    (trace (interp (_ensure_absolute_path p ≫= (fun fp => run_step (mk fp))) w))
  = match result (interp (_ensure_absolute_path p) w) with
    | inr fp => [mk fp]
    | inl _ => []
    end.
Proof.
  rewrite interp_bind.
  destruct (result (interp (_ensure_absolute_path p) w)) as [e|fp] eqn:E; cbn.
  - apply ensure_absolute_path_steps.
  - unfold steps_run. rewrite omap_app.
    fold (steps_run (trace (interp (_ensure_absolute_path p) w))).
    rewrite ensure_absolute_path_steps. apply run_step_steps.
Qed.

(** X1: once the path resolution has completed, [add_file] with a string
    as content hands the autopilot exactly one Step, the filesystem-edit
    Step of [AddFile] on the resolved path, with that content. *)
Lemma add_file_carries_resolved_path
    (admits_None : bool) (w : World H) (filename filepath c : string) :
  result (interp (_ensure_absolute_path filename) w) = inr filepath ->
  steps_run (trace (interp (add_file admits_None filename (Some c)) w))
  = [FileSystemEditStep (AddFile filepath (Some c)) None None].
Proof.
  intros E.
  change (add_file admits_None filename (Some c))
    with (_ensure_absolute_path filename
          ≫= fun fp => run_step (FileSystemEditStep (AddFile fp (Some c))
                                   None None)).
  rewrite (resolve_then_run_step w filename
             (fun fp => FileSystemEditStep (AddFile fp (Some c)) None None)).
  by rewrite E.
Qed.

(** With no content, what [add_file] does after resolving the path depends
    on whether [AddFile] admits a missing content: if it does, the one Step
    run carries [AddFile] on the resolved path without content; if it does
    not, the construction of the edit raises and no Step is run. *)
Lemma add_file_without_content
    (admits_None : bool) (w : World H) (filename filepath : string) :
  result (interp (_ensure_absolute_path filename) w) = inr filepath ->
  let o := interp (add_file admits_None filename None) w in
  if admits_None
  then steps_run (trace o) = [FileSystemEditStep (AddFile filepath None) None None]
  else steps_run (trace o) = [] /\ result o = inl ValidationError.
Proof.
  intros E. cbn zeta. destruct admits_None.
  - change (add_file true filename None)
      with (_ensure_absolute_path filename
            ≫= fun fp => run_step (FileSystemEditStep (AddFile fp None)
                                     None None)).
    rewrite (resolve_then_run_step w filename
               (fun fp => FileSystemEditStep (AddFile fp None) None None)).
    by rewrite E.
  - unfold add_file, new_AddFile. rewrite interp_bind, E. cbn.
    rewrite app_nil_r. split; [apply ensure_absolute_path_steps|done].
Qed.

(** C2: once the path resolution has completed, with whatever absolute
    path, [delete_file] hands the autopilot exactly one Step, the
    filesystem-edit Step of [DeleteFile] on the filename as it was passed. *)
Theorem delete_file_carries_original_filename
    (w : World H) (filename filepath : string) :
  result (interp (_ensure_absolute_path filename) w) = inr filepath ->
  steps_run (trace (interp (delete_file filename) w))
  = [FileSystemEditStep (DeleteFile filename) None None].
Proof.
  intros E. unfold delete_file.
  rewrite (resolve_then_run_step w filename
             (fun _ => FileSystemEditStep (DeleteFile filename) None None)).
  by rewrite E.
Qed.

(** C5: once the path resolution has completed, [add_directory] and
    [delete_directory] hand the autopilot exactly one Step each, the
    filesystem-edit Step of [AddDirectory], respectively [DeleteDirectory],
    on the path as it was passed. *)
Theorem directory_edits_carry_original_path
    (w : World H) (path filepath : string) :
  result (interp (_ensure_absolute_path path) w) = inr filepath ->
  steps_run (trace (interp (add_directory path) w))
  = [FileSystemEditStep (AddDirectory path) None None]
  /\ steps_run (trace (interp (delete_directory path) w))
     = [FileSystemEditStep (DeleteDirectory path) None None].
Proof.
  intros E. unfold add_directory, delete_directory.
  rewrite (resolve_then_run_step w path
             (fun _ => FileSystemEditStep (AddDirectory path) None None)).
  rewrite (resolve_then_run_step w path
             (fun _ => FileSystemEditStep (DeleteDirectory path) None None)).
  by rewrite E.
Qed.

End EditDispatcher.

(** ** Appending to a file *)

Section AppendToFile.
Context {H : Type} `{Environment H}.
Variable from_append : string -> string -> string -> FileSystemEdit.
Import ContinueSDK.

(** Everything a call of [append_to_file] can do, given how the path
    resolution went. *)
Lemma append_to_file_outcome (w : World H) (filename content : string) :
  interp (append_to_file from_append filename content) w =
    let o := interp (_ensure_absolute_path filename) w in
    match result o with
    | inl e => mkOutcome (inl e) (final o) (trace o)
    | inr filepath =>
        match on_ide (Ide.readFile filepath) (host (final o)) with
        | (inl e, h1) =>
            mkOutcome (inl e) (mkWorld (heap (final o)) h1)
              (trace o ++ [Ev (ide (Ide.readFile filepath)) (inl e)])
        | (inr previous, h1) =>
            let edit := from_append filepath previous content in
            let '(r, h2) := on_ide (Ide.applyFileSystemEdit edit) h1 in
            mkOutcome r (mkWorld (heap (final o)) h2)
              (trace o ++ [Ev (ide (Ide.readFile filepath)) (inr previous);
                           Ev (ide (Ide.applyFileSystemEdit edit)) r])
        end
    end.
Proof.
  unfold append_to_file. rewrite interp_bind. cbn zeta.
  destruct (result (interp (_ensure_absolute_path filename) w))
    as [e|filepath]; [done|].
  cbn.
  destruct (on_ide (Ide.readFile filepath) _) as [[e|previous] h1]; [done|].
  cbn.
  by destruct (on_ide (Ide.applyFileSystemEdit _) h1) as [[e|[]] h2].
Qed.

(** C8: [append_to_file] never calls the autopilot, so no Step is run and
    the heap, with the History in it, is as before; and when the path is
    resolved and the previous content read, the append-edit derived from
    them is the one edit sent to the host's [applyFileSystemEdit]. *)
Theorem append_to_file_bypasses_history
    (w : World H) (filename content : string) :
  let o := interp (append_to_file from_append filename content) w in
  Forall (fun e => is_autopilot_event e = false) (trace o)
  /\ steps_run (trace o) = []
  /\ history (heap (final o)) = history (heap w)
  /\ forall (filepath previous : string) (w1 : World H) (h1 : H),
       result (interp (_ensure_absolute_path filename) w) = inr filepath ->
       final (interp (_ensure_absolute_path filename) w) = w1 ->
       on_ide (Ide.readFile filepath) (host w1) = (inr previous, h1) ->
       host_edits (trace o) = [from_append filepath previous content]
       /\ result o = fst (on_ide (Ide.applyFileSystemEdit
                                    (from_append filepath previous content)) h1).
Proof.
  cbn zeta. rewrite append_to_file_outcome. cbn zeta.
  pose proof (ensure_absolute_path_frame w filename) as [Hheap Hide].
  pose proof (ensure_absolute_path_steps w filename) as Hsteps.
  assert (Hedits : host_edits (trace (interp (_ensure_absolute_path filename) w)) = []).
  { rewrite ensure_absolute_path_outcome. destruct (os_path.isabs filename); [done|].
    by destruct (on_ide Ide.getWorkspaceDirectory (host w)) as [[e|wd] h']. }
  cbn zeta in Hheap, Hide.
  assert (Hsteps' : forall t, steps_run t = [] ->
            steps_run (trace (interp (_ensure_absolute_path filename) w) ++ t) = []).
  { intros t Ht. unfold steps_run in *. by rewrite omap_app, Hsteps, Ht. }
  destruct (result (interp (_ensure_absolute_path filename) w))
    as [e|filepath] eqn:E.
  { cbn. split_and!; [done|done|by rewrite Hheap|]. by intros. }
  destruct (on_ide (Ide.readFile filepath) _) as [[e|previous] h1] eqn:R.
  { cbn. split_and!.
    - apply Forall_app. split; [done|by repeat constructor].
    - by apply Hsteps'.
    - by rewrite Hheap.
    - intros fp prev w1 h1' [= <-] <-. by rewrite R. }
  destruct (on_ide (Ide.applyFileSystemEdit _) h1) as [r h2] eqn:A.
  cbn. split_and!.
  - apply Forall_app. split; [done|by repeat constructor].
  - by apply Hsteps'.
  - by rewrite Hheap.
  - intros fp prev w1 h1' [= <-] <-. rewrite R. intros [= <- <-].
    rewrite A. split; [|done].
    unfold host_edits in *. by rewrite omap_app, Hedits.
Qed.

End AppendToFile.

(** ** Configuration, secrets and the reserved operation *)

Section Facade.
Context {H : Type} `{Environment H}.
Import ContinueSDK.


(** C9: [set_loading_message] raises [NotImplementedError] for every
    message, in every world, without doing anything else. *)
Theorem set_loading_message_not_implemented (w : World H) (message : string) :
  interp (set_loading_message message) w
  = mkOutcome (inl NotImplementedError) w [].
Proof. reflexivity. Qed.

(** C10: the outcome of [get_user_secret] (result, final world and the
    calls made) is the same for any two prompts: the one call made is the
    host's [getUserSecret] on [env_var], and the result is its answer. *)
Theorem get_user_secret_ignores_prompt
    (w : World H) (env_var prompt1 prompt2 : string) :
  interp (get_user_secret env_var prompt1) w
  = interp (get_user_secret env_var prompt2) w
  /\ result (interp (get_user_secret env_var prompt1) w)
     = fst (on_ide (Ide.getUserSecret env_var) (host w))
  /\ trace (interp (get_user_secret env_var prompt1) w)
     = [Ev (ide (Ide.getUserSecret env_var))
          (fst (on_ide (Ide.getUserSecret env_var) (host w)))].
Proof.
  unfold get_user_secret, await. cbn.
  by destruct (on_ide (Ide.getUserSecret env_var) (host w)) as [[e|x] h'].
Qed.

End Facade.

(** ** Chat context *)

Section ChatContext.
Context {H : Type} `{Environment H}.
Variable to_chat_history : History -> list ChatMessage.
Variable more_roles : ChatMessageRole -> bool.
Import ContinueSDK.

(** What [add_chat_context] does when [current_index] addresses a node and
    the role, given or default, is a role: that node's Step gets one more
    message, with the given content and that role, at the end of its chat
    context; every other node, the length of the timeline, the index and
    the host are as before, and no call is made. *)
Lemma add_chat_context_appends
    (w : World H) (content : string) (role : option ChatMessageRole)
    (i : nat) (node : HistoryNode) :
  let hist := history (heap w) in
  Py.index (timeline hist) (current_index hist) = Some i ->
  timeline hist !! i = Some node ->
  is_role more_roles (default add_chat_context_default_role role) = true ->
  let o := interp (add_chat_context more_roles content role) w in
  let hist' := history (heap (final o)) in
  let msg := mkChatMessage content (default add_chat_context_default_role role) in
  result o = inr tt
  /\ trace o = []
  /\ host (final o) = host w
  /\ current_index hist' = current_index hist
  /\ length (timeline hist') = length (timeline hist)
  /\ timeline hist' !! i = Some (append_chat_context msg node)
  /\ forall j, j <> i -> timeline hist' !! j = timeline hist !! j.
Proof.
  cbn zeta. intros Hi Hnode Hrole. unfold add_chat_context, new_ChatMessage.
  cbn. rewrite Hi. cbn. rewrite Hrole. cbn.
  split_and!; try done.
  - apply length_alter.
  - rewrite list_lookup_alter_eq. by rewrite Hnode.
  - intros j Hj. by apply list_lookup_alter_ne.
Qed.

(** An index that addresses no node makes [add_chat_context] raise
    [IndexError] and change nothing. *)
Lemma add_chat_context_index_error
    (w : World H) (content : string) (role : option ChatMessageRole) :
  Py.index (timeline (history (heap w))) (current_index (history (heap w)))
    = None ->
  interp (add_chat_context more_roles content role) w
  = mkOutcome (inl IndexError) w [].
Proof. intros Hi. unfold add_chat_context. cbn. by rewrite Hi. Qed.

(** The role of the messages that [get_chat_context] constructs is a named
    role, so their construction passes validation whatever else
    [ChatMessage] admits. *)
Lemma highlighted_code_message_role (code : string) :
  is_role more_roles (role (highlighted_code_message code)) = true.
Proof. reflexivity. Qed.

(** The loop over the highlighted ranges: either every range is read and
    the context grows by one message per range, in order, or a read fails
    and its exception ends the run. *)
Lemma for_highlighted_code_outcome
    (rifs : list RangeInFile) (acc : list ChatMessage) (w : World H) :
  let o := interp (for_highlighted_code rifs acc) w in
  heap (final o) = heap w
  /\ ((exists codes : list string,
         length codes = length rifs
         /\ trace o = range_reads rifs codes
         /\ result o = inr (acc ++ map highlighted_code_message codes))
      \/ failed_by_last_call o).
Proof.
  cbn zeta. revert acc w. induction rifs as [|rif rest IH]; intros acc w.
  - cbn. split; [done|]. left. exists []. cbn. by rewrite app_nil_r.
  - cbn. destruct (on_ide (Ide.readRangeInFile rif) (host w))
      as [[e|code] h'] eqn:R; cbn.
    + split; [done|]. right. by exists e, _, (ide (Ide.readRangeInFile rif)).
    + specialize (IH (acc ++ [highlighted_code_message code])
                     (mkWorld (heap w) h')).
      destruct IH as [Hheap IH]. split; [done|].
      destruct IH as [(codes & Hlen & Htr & Hres)|(e & X & c & Hres & Hlast)].
      * left. exists (code :: codes). cbn. split_and!.
        -- by rewrite Hlen.
        -- by rewrite Htr.
        -- by rewrite Hres, <- app_assoc.
      * right. exists e, X, c. split; [done|]. cbn [trace].
        by rewrite last_cons, Hlast.
Qed.

(** C6: [get_chat_context] leaves the heap alone and, unless a host call
    fails (then that failure is the outcome), returns the transcript of
    the History followed by one message per range the host reported, in
    the host's order: the message of the i-th range wraps the code the host
    returned for that range in the fenced template and has role [user].
    When the host reports no range the result is the transcript. *)
Theorem get_chat_context_transcript_then_highlights (w : World H) :
  let o := interp (get_chat_context to_chat_history) w in
  let transcript := to_chat_history (history (heap w)) in
  heap (final o) = heap w
  /\ ((exists (rifs : list RangeInFile) (codes : list string),
         length codes = length rifs
         /\ trace o = Ev (ide Ide.getHighlightedCode) (inr rifs)
                        :: range_reads rifs codes
         /\ result o = inr (transcript ++ map highlighted_code_message codes))
      \/ failed_by_last_call o)
  /\ (forall code : string,
        highlighted_code_message code
        = mkChatMessage
            ("The following code is highlighted:" +:+ Py.nl +:+ "```"
               +:+ Py.nl +:+ code +:+ Py.nl +:+ "```")
            "user")
  /\ (forall h' : H,
        on_ide Ide.getHighlightedCode (host w) = (inr [], h') ->
        result o = inr transcript).
Proof.
  cbn zeta. unfold get_chat_context. cbn.
  destruct (on_ide Ide.getHighlightedCode (host w)) as [[e|rifs] h'] eqn:G; cbn.
  - split_and!; [done| |done|by intros].
    right. by exists e, _, (ide Ide.getHighlightedCode).
  - pose proof (for_highlighted_code_outcome rifs
                  (to_chat_history (history (heap w))) (mkWorld (heap w) h'))
      as [Hheap Hloop].
    cbn zeta in Hheap, Hloop. split_and!; [done| |done|].
    + destruct Hloop as [(codes & Hlen & Htr & Hres)|(e & X & c & Hres & Hlast)].
      * left. exists rifs, codes. by rewrite Htr.
      * right. exists e, X, c. split; [done|]. cbn [trace].
        by rewrite last_cons, Hlast.
    + by intros h'' [= -> ->].
Qed.

End ChatContext.

(** ** Lazy, cached model clients *)

Section LazyModels.
Context {H : Type} `{Environment H}.
Import Models.

(** A miss followed by a hit: when the attribute is not in the instance
    dictionary and the first access returns [r], the function was run once,
    [r] is what it returned, and a second access returns [r] again without
    running anything. *)
Lemma cached_property_miss_then_hit
    (attr : string) (func : Prog LLM) (w : World H) (r : LLM) :
  models_dict (heap w) !! attr = None ->
  result (interp (cached_property attr func) w) = inr r ->
  let o1 := interp (cached_property attr func) w in
  result (interp func w) = inr r
  /\ trace o1 = trace (interp func w)
  /\ models_dict (heap (final o1)) !! attr = Some r
  /\ interp (cached_property attr func) (final o1)
     = mkOutcome (inr r) (final o1) [].
Proof.
  intros Hmiss. unfold cached_property. cbn. rewrite Hmiss.
  rewrite interp_bind.
  destruct (result (interp func w)) as [e|val] eqn:F; [done|].
  cbn. intros [= ->]. split_and!; [done|by rewrite app_nil_r| |].
  - by rewrite lookup_insert_eq.
  - by rewrite lookup_insert_eq.
Qed.

(** Loading a client asks the host for one secret, neither more nor less,
    whenever it returns a client. *)
Lemma loader_fetches_once (a : accessor) (w : World H) (r : LLM) :
  result (interp (run_until_complete (loader a)) w) = inr r ->
  secret_fetches (trace (interp (run_until_complete (loader a)) w)) = 1.
Proof.
  unfold run_until_complete. cbn. destruct (loop_running (heap w)); [done|].
  destruct a; cbn.
  - by destruct (on_ide (Ide.getUserSecret "HUGGING_FACE_TOKEN") (host w))
      as [[e|k] h'].
  - by destruct (on_ide (Ide.getUserSecret "OPENAI_API_KEY") (host w))
      as [[e|k] h'].
Qed.

Lemma access_unfold (a : accessor) :
  access a = cached_property (attrname a) (run_until_complete (loader a)).
Proof. by destruct a. Qed.

(** Everything an access can do. *)
Lemma access_outcome (a : accessor) (w : World H) :
  interp (access a) w =
    match models_dict (heap w) !! attrname a with
    | Some r => mkOutcome (inr r) w []
    | None =>
        if loop_running (heap w)
        then mkOutcome (inl (RuntimeError "This event loop is already running"))
               w []
        else
          match on_ide (Ide.getUserSecret (secret_name a)) (host w) with
          | (inl e, h') =>
              mkOutcome (inl e) (mkWorld (heap w) h')
                [Ev (ide (Ide.getUserSecret (secret_name a))) (inl e)]
          | (inr key, h') =>
              let r := client a (next_object_id (heap w)) key in
              mkOutcome (inr r)
                (mkWorld
                   (mkHeap (history (heap w))
                      (<[attrname a := r]> (models_dict (heap w)))
                      (S (next_object_id (heap w))) false)
                   h')
                [Ev (ide (Ide.getUserSecret (secret_name a))) (inr key)]
          end
    end.
Proof.
  destruct a; cbn.
  - destruct (models_dict (heap w) !! "starcoder"); [done|]. cbn.
    destruct (loop_running (heap w)) eqn:L; [done|]. cbn.
    destruct (on_ide (Ide.getUserSecret "HUGGING_FACE_TOKEN") (host w))
      as [[e|key] h']; [done|].
    cbn. unfold set_models_dict. cbn. by rewrite L.
  - destruct (models_dict (heap w) !! "gpt35"); [done|]. cbn.
    destruct (loop_running (heap w)) eqn:L; [done|]. cbn.
    destruct (on_ide (Ide.getUserSecret "OPENAI_API_KEY") (host w))
      as [[e|key] h']; [done|].
    cbn. unfold set_models_dict. cbn. by rewrite L.
Qed.

(** C7: for each accessor of a [Models] instance that has not cached it
    yet, outside a running event loop and with a host that returns the
    secret, the first access returns a client and the second access
    returns the same client (the same object, identity included), makes no
    call and changes nothing; the host's [getUserSecret] was called once
    over the two accesses. *)
Theorem models_accessor_cached
    (a : accessor) (w : World H) (key : string) (h' : H) :
  models_dict (heap w) !! attrname a = None ->
  loop_running (heap w) = false ->
  on_ide (Ide.getUserSecret (secret_name a)) (host w) = (inr key, h') ->
  let o1 := interp (access a) w in
  let o2 := interp (access a) (final o1) in
  let r := client a (next_object_id (heap w)) key in
  result o1 = inr r
  /\ result o2 = inr r
  /\ final o2 = final o1
  /\ trace o2 = []
  /\ secret_fetches (trace o1 ++ trace o2) = 1.
Proof.
  intros Hmiss Hloop Hkey. cbn zeta.
  rewrite (access_outcome a w), Hmiss, Hloop, Hkey.
  cbn [result final trace]. cbn zeta.
  rewrite access_outcome. cbn [heap models_dict].
  rewrite lookup_insert_eq. by split_and!.
Qed.

End LazyModels.

(** ** The methods on the in-memory environment *)

Section OnTheInMemoryEnvironment.
Import ContinueSDK InMemory.

(** C1: on a History of two nodes whose second node is the current one,
    [add_chat_context "noted"] with the role omitted never leaves the
    History as the claim has it, with the message [noted] of role
    [assistant] appended to the second node: the role it uses is the
    default one, the string [assistent].  Where [ChatMessage] admits that
    string the call returns and the message appended has role [assistent];
    where it does not the call raises [ValidationError] and the world is
    as before. *)
Theorem add_chat_context_default_role_misspelled
    (more_roles : ChatMessageRole -> bool) :
  let o := interp (add_chat_context more_roles "noted" None) demo_world in
  let contexts :=
    map (fun node => chat_context (step node))
      (timeline (history (heap (final o)))) in
  contexts <> [[mkChatMessage "listing" "assistant"];
               [mkChatMessage "noted" "assistant"]]
  /\ (if more_roles "assistent"
      then result o = inr tt
           /\ contexts = [[mkChatMessage "listing" "assistant"];
                          [mkChatMessage "noted" "assistent"]]
      else result o = inl ValidationError /\ final o = demo_world)
  /\ add_chat_context_default_role <> "assistant".
Proof.
  cbn zeta. unfold add_chat_context, new_ChatMessage.
  change (default add_chat_context_default_role None) with "assistent".
  assert (Hrole : is_role more_roles "assistent" = more_roles "assistent")
    by reflexivity.
  rewrite Hrole. destruct (more_roles "assistent"); cbn; by split_and!.
Qed.

Lemma ensure_absolute_path_spec_witness :
  interp (_ensure_absolute_path "/etc/hosts") demo_world
  = mkOutcome (inr "/etc/hosts") demo_world []
  /\ interp (_ensure_absolute_path "notes.txt") demo_world
     = mkOutcome (inr "/ws/notes.txt") demo_world
         [Ev (ide Ide.getWorkspaceDirectory) (inr "/ws")].
Proof.
  split.
  - exact (proj1 (ensure_absolute_path_spec demo_world "/etc/hosts") eq_refl).
  - exact (proj2 (ensure_absolute_path_spec demo_world "notes.txt") eq_refl
             "/ws" demo_machine eq_refl).
Defined.

Lemma delete_file_carries_original_filename_witness :
  result (interp (_ensure_absolute_path "notes.txt") demo_world)
  = inr "/ws/notes.txt"
  /\ steps_run (trace (interp (delete_file "notes.txt") demo_world))
     = [FileSystemEditStep (DeleteFile "notes.txt") None None].
Proof.
  split; [reflexivity|].
  exact (delete_file_carries_original_filename demo_world "notes.txt"
           "/ws/notes.txt" eq_refl).
Defined.

Lemma directory_edits_carry_original_path_witness :
  result (interp (_ensure_absolute_path "build") demo_world) = inr "/ws/build"
  /\ steps_run (trace (interp (add_directory "build") demo_world))
     = [FileSystemEditStep (AddDirectory "build") None None]
  /\ steps_run (trace (interp (delete_directory "build") demo_world))
     = [FileSystemEditStep (DeleteDirectory "build") None None].
Proof.
  split; [reflexivity|].
  exact (directory_edits_carry_original_path demo_world "build" "/ws/build"
           eq_refl).
Defined.

Lemma append_to_file_bypasses_history_witness :
  let o := interp (append_to_file from_append "notes.txt" " world") demo_world in
  history (heap (final o)) = demo_history
  /\ steps_run (trace o) = []
  /\ host_edits (trace o) = [from_append "/ws/notes.txt" "hello" " world"]
  /\ result o = inr tt.
Proof.
  cbn zeta.
  destruct (append_to_file_bypasses_history from_append demo_world
              "notes.txt" " world") as (_ & Hsteps & Hhist & Hedit).
  destruct (Hedit "/ws/notes.txt" "hello" demo_world demo_machine
              eq_refl eq_refl eq_refl) as [Hedits Hres].
  exact (conj Hhist (conj Hsteps (conj Hedits Hres))).
Defined.


Lemma get_chat_context_transcript_then_highlights_witness :
  result (interp (get_chat_context to_chat_history) quiet_world)
  = inr [mkChatMessage "listing" "assistant"].
Proof.
  exact (proj2 (proj2 (proj2
           (get_chat_context_transcript_then_highlights to_chat_history
              quiet_world)))
           nothing_highlighted eq_refl).
Defined.

Lemma models_accessor_cached_witness :
  let hf := mkLLM 0 HuggingFaceInferenceAPI "hf-token" None in
  let oa := mkLLM 0 OpenAI "sk-key" (Some "gpt-3.5-turbo") in
  let s1 := interp Models.starcoder demo_world in
  let s2 := interp Models.starcoder (final s1) in
  let g1 := interp Models.gpt35 demo_world in
  let g2 := interp Models.gpt35 (final g1) in
  (result s1 = inr hf
   /\ result s2 = inr hf
   /\ final s2 = final s1
   /\ trace s2 = []
   /\ secret_fetches (trace s1 ++ trace s2) = 1)
  /\ (result g1 = inr oa
      /\ result g2 = inr oa
      /\ final g2 = final g1
      /\ trace g2 = []
      /\ secret_fetches (trace g1 ++ trace g2) = 1).
Proof.
  cbn zeta.
  assert (Hhf : on_ide (Ide.getUserSecret (Models.secret_name Models.Starcoder))
                  (host demo_world) = (inr "hf-token", demo_machine))
    by reflexivity.
  assert (Hoa : on_ide (Ide.getUserSecret (Models.secret_name Models.Gpt35))
                  (host demo_world) = (inr "sk-key", demo_machine))
    by reflexivity.
  split.
  - exact (models_accessor_cached Models.Starcoder demo_world "hf-token"
             demo_machine eq_refl eq_refl Hhf).
  - exact (models_accessor_cached Models.Gpt35 demo_world "sk-key"
             demo_machine eq_refl eq_refl Hoa).
Defined.

(** The highlighted ranges of the demo world, after the transcript. *)
Example get_chat_context_demo :
  result (interp (get_chat_context to_chat_history) demo_world)
  = inr [mkChatMessage "listing" "assistant";
         highlighted_code_message "pass";
         highlighted_code_message "hello"].
Proof. reflexivity. Qed.

(** The second model client is a different object from the first. *)
Example gpt35_after_starcoder :
  result (interp Models.gpt35 (final (interp Models.starcoder demo_world)))
  = inr (mkLLM 1 OpenAI "sk-key" (Some "gpt-3.5-turbo")).
Proof. reflexivity. Qed.

(** Under a running event loop an accessor raises and caches nothing. *)
Example starcoder_in_running_loop :
  let w := mkWorld (mkHeap demo_history ∅ 0 true) demo_machine in
  interp Models.starcoder w
  = mkOutcome (inl (RuntimeError "This event loop is already running")) w [].
Proof. reflexivity. Qed.

(** The scenario of the spec for [add_file]. *)
Example add_file_demo :
  steps_run
    (trace (interp (add_file false "notes.txt" (Some "hello")) demo_world))
  = [FileSystemEditStep (AddFile "/ws/notes.txt" (Some "hello")) None None].
Proof. reflexivity. Qed.

End OnTheInMemoryEnvironment.

(** * Further properties of the SDK *)

(** ** Strings and joined paths *)

Section Strings.

Lemma append_cons (a : ascii) (s t : string) :
  String a s +:+ t = String a (s +:+ t).
Proof. reflexivity. Qed.

Lemma append_nil_l (t : string) : "" +:+ t = t.
Proof. reflexivity. Qed.

Lemma append_assoc (s t u : string) : (s +:+ t) +:+ u = s +:+ (t +:+ u).
Proof.
  induction s as [|a s IH]; [done|]. by rewrite !append_cons, IH.
Qed.

Lemma length_append (s t : string) :
  String.length (s +:+ t) = String.length s + String.length t.
Proof.
  induction s as [|a s IH]; [done|]. rewrite append_cons. cbn. by rewrite IH.
Qed.

Lemma startswith_append (s t : string) (c : ascii) :
  Py.startswith s c = true -> Py.startswith (s +:+ t) c = true.
Proof. by destruct s. Qed.

Lemma truthy_append_r (s t : string) :
  Py.truthy t = true -> Py.truthy (s +:+ t) = true.
Proof. destruct s; [by rewrite append_nil_l|done]. Qed.

(** Whether a string ends with [c] is decided by its non-empty suffix. *)
Lemma endswith_append_r (s t : string) (c : ascii) :
  Py.truthy t = true -> Py.endswith (s +:+ t) c = Py.endswith t c.
Proof.
  intros Ht. induction s as [|a s IH]; [done|].
  rewrite append_cons. cbn. rewrite IH.
  pose proof (truthy_append_r s t Ht) as Hne.
  by destruct (s +:+ t).
Qed.

(** Joining onto an absolute root gives an absolute path. *)
Lemma join_absolute (root p : string) :
  os_path.isabs root = true -> os_path.isabs (os_path.join root [p]) = true.
Proof.
  intros Hroot. unfold os_path.join. cbn. unfold os_path.join_step.
  destruct (Py.startswith p os_path.sep) eqn:Hp; [done|].
  destruct (negb (Py.truthy root) || Py.endswith root os_path.sep);
    by apply startswith_append.
Qed.

(** Joining a relative path onto a non-empty root gives a longer path. *)
Lemma join_relative_longer (root p : string) :
  root <> "" -> os_path.isabs p = false ->
  String.length p < String.length (os_path.join root [p]).
Proof.
  intros Hroot Hp. unfold os_path.join. cbn. unfold os_path.join_step.
  unfold os_path.isabs in Hp. rewrite Hp.
  assert (0 < String.length root) by (destruct root; [done|cbn; lia]).
  destruct (negb (Py.truthy root) || Py.endswith root os_path.sep);
    rewrite !length_append; cbn; lia.
Qed.

End Strings.

(** ** Resolved paths *)

Section ResolvedPaths.
Context {H : Type} `{Environment H}.
Import ContinueSDK.

(** X2: an absolute argument, or a relative one under an absolute workspace
    root, is resolved: the call returns, the path it returns is absolute,
    and resolving that path again returns it as it is, without asking the
    host. *)
Theorem ensure_absolute_path_result_absolute (w : World H) (p : string) :
  os_path.isabs p = true
  \/ (exists (root : string) (h' : H),
        on_ide Ide.getWorkspaceDirectory (host w) = (inr root, h')
        /\ os_path.isabs root = true) ->
  exists fp : string,
    result (interp (_ensure_absolute_path p) w) = inr fp
    /\ os_path.isabs fp = true
    /\ forall w' : World H,
         interp (_ensure_absolute_path fp) w' = mkOutcome (inr fp) w' [].
Proof.
  intros Hcase. rewrite ensure_absolute_path_outcome.
  destruct (os_path.isabs p) eqn:Hp.
  - exists p. split_and!; [done..|].
    intros w'. rewrite ensure_absolute_path_outcome. by rewrite Hp.
  - destruct Hcase as [?|(root & h' & Hwd & Hroot)]; [done|].
    rewrite Hwd. exists (os_path.join root [p]).
    pose proof (join_absolute root p Hroot) as Habs.
    split_and!; [done..|].
    intros w'. rewrite ensure_absolute_path_outcome. by rewrite Habs.
Qed.

(** X3: for a relative filename under a non-empty workspace root, [add_file]
    with a string as content and [delete_file] do not address the same
    path: the edit of [add_file] carries the joined path, the edit of
    [delete_file] the filename, and the two differ. *)
Theorem add_file_delete_file_disagree
    (admits_None : bool) (w : World H) (filename root : string) (h' : H)
    (c : string) :
  os_path.isabs filename = false ->
  on_ide Ide.getWorkspaceDirectory (host w) = (inr root, h') ->
  root <> "" ->
  steps_run (trace (interp (add_file admits_None filename (Some c)) w))
  = [FileSystemEditStep (AddFile (os_path.join root [filename]) (Some c))
       None None]
  /\ steps_run (trace (interp (delete_file filename) w))
     = [FileSystemEditStep (DeleteFile filename) None None]
  /\ os_path.join root [filename] <> filename.
Proof.
  intros Hrel Hwd Hroot.
  assert (Hres : result (interp (_ensure_absolute_path filename) w)
                 = inr (os_path.join root [filename])).
  { rewrite ensure_absolute_path_outcome. by rewrite Hrel, Hwd. }
  change (add_file admits_None filename (Some c))
    with (_ensure_absolute_path filename
          ≫= fun fp => run_step (FileSystemEditStep (AddFile fp (Some c))
                                   None None)).
  unfold delete_file.
  rewrite (resolve_then_run_step w filename
             (fun fp => FileSystemEditStep (AddFile fp (Some c)) None None)).
  rewrite (resolve_then_run_step w filename
             (fun _ => FileSystemEditStep (DeleteFile filename) None None)).
  rewrite Hres. split_and!; [done..|].
  intros Heq. pose proof (join_relative_longer root filename Hroot Hrel) as Hlen.
  rewrite Heq in Hlen. lia.
Qed.

End ResolvedPaths.

(** ** Steps handed to the autopilot *)

Section RunningSteps.
Context {H : Type} `{Environment H}.
Variable from_append : string -> string -> string -> FileSystemEdit.
Variable from_entire_file : string -> string -> RangeInFile.
Import ContinueSDK.

(** Everything [run_step] does: one call of the autopilot, whose answer,
    value or exception, is the result. *)
Lemma run_step_outcome (w : World H) (s : Step) :
  interp (run_step s) w =
    let '(r, w') := on_autopilot (Autopilot._run_singular_step s) w in
    mkOutcome r w' [Ev (autopilot (Autopilot._run_singular_step s)) r].
Proof.
  unfold run_step, await. cbn.
  by destruct (on_autopilot (Autopilot._run_singular_step s) w) as [[e|x] w'].
Qed.

(** X4: [apply_filesystem_edit] hands the autopilot one filesystem-edit Step
    for the edit, with the description as given and an empty chat context;
    the Step is named only by a name that is neither omitted nor the empty
    string; the autopilot's answer is the result. *)
Theorem apply_filesystem_edit_step
    (w : World H) (edit : FileSystemEdit) (nm descr : option string) :
  let o := interp (apply_filesystem_edit edit nm descr) w in
  exists s : Step,
    steps_run (trace o) = [s]
    /\ body s = FileSystemEditBody edit
    /\ description s = descr
    /\ chat_context s = []
    /\ name s
       = match nm with
         | Some n => if decide (n = "") then None else Some n
         | None => None
         end
    /\ result o = fst (on_autopilot (Autopilot._run_singular_step s) w)
    /\ final o = snd (on_autopilot (Autopilot._run_singular_step s) w).
Proof.
  cbn zeta. unfold apply_filesystem_edit.
  exists (FileSystemEditStep edit (name_kwarg nm) descr).
  rewrite run_step_outcome.
  destruct (on_autopilot _ w) as [r w'] eqn:A. cbn.
  split_and!; try done.
  by destruct nm as [[|a n]|].
Qed.

(** X5: [run] hands the autopilot one shell Step, for the list of commands
    given or for the one-element list of the single command given.  The
    text of the Step's observation is the result; an exception of the Step
    that reaches [run] is passed on, whatever [handle_error] is. *)
Theorem run_outcome
    (w : World H) (commands : list string + string) (cwd nm descr : option string)
    (handle_error : bool) :
  let cmds := match commands with inl l => l | inr c => [c] end in
  let s := ShellCommandsStep cmds cwd (name_kwarg nm) descr handle_error in
  let o := interp (run commands cwd nm descr handle_error) w in
  steps_run (trace o) = [s]
  /\ (forall (t : string) (w' : World H),
        on_autopilot (Autopilot._run_singular_step s) w
        = (inr (TextObservation t), w') ->
        result o = inr t /\ final o = w')
  /\ (forall (e : Exn) (w' : World H),
        on_autopilot (Autopilot._run_singular_step s) w = (inl e, w') ->
        result o = inl e /\ final o = w').
Proof.
  cbn zeta. unfold run. rewrite interp_bind, run_step_outcome.
  destruct (on_autopilot _ w) as [[e|obs] w1] eqn:A; cbn.
  - split_and!; [done|by intros|]. by intros e' w' [= <- <-].
  - split_and!.
    + destruct obs; cbn; by rewrite ?app_nil_r.
    + by intros t w' [= -> <-].
    + by intros.
Qed.

(** Everything a call of [edit_file] can do, given how the path resolution
    went. *)
Lemma edit_file_outcome
    (w : World H) (filename prompt : string) (nm descr : option string)
    (range : option Range) :
  interp (edit_file from_entire_file filename prompt nm descr range) w =
    let o := interp (_ensure_absolute_path filename) w in
    match result o with
    | inl e => mkOutcome (inl e) (final o) (trace o)
    | inr fp =>
        match on_ide (Ide.setFileOpen fp) (host (final o)) with
        | (inl e, h1) =>
            mkOutcome (inl e) (mkWorld (heap (final o)) h1)
              (trace o ++ [Ev (ide (Ide.setFileOpen fp)) (inl e)])
        | (inr u, h1) =>
            match on_ide (Ide.readFile fp) h1 with
            | (inl e, h2) =>
                mkOutcome (inl e) (mkWorld (heap (final o)) h2)
                  (trace o ++ [Ev (ide (Ide.setFileOpen fp)) (inr u);
                               Ev (ide (Ide.readFile fp)) (inl e)])
            | (inr contents, h2) =>
                let s :=
                  Gpt35EditCodeStep
                    [match range with
                     | Some r => mkRangeInFile fp r
                     | None => from_entire_file fp contents
                     end]
                    prompt (name_kwarg nm) descr in
                let '(r, w') :=
                  on_autopilot (Autopilot._run_singular_step s)
                    (mkWorld (heap (final o)) h2) in
                mkOutcome (match r with inl e => inl e | inr _ => inr tt end) w'
                  (trace o ++ [Ev (ide (Ide.setFileOpen fp)) (inr u);
                               Ev (ide (Ide.readFile fp)) (inr contents);
                               Ev (autopilot (Autopilot._run_singular_step s)) r])
            end
        end
    end.
Proof.
  unfold edit_file. rewrite interp_bind. cbn zeta.
  destruct (result (interp (_ensure_absolute_path filename) w)) as [e|fp];
    [done|].
  cbn.
  destruct (on_ide (Ide.setFileOpen fp) _) as [[e|u] h1]; [done|]. cbn.
  destruct (on_ide (Ide.readFile fp) h1) as [[e|contents] h2]; [done|]. cbn.
  by destruct (on_autopilot _ _) as [[e|obs] w'].
Qed.

(** X6: when the path is resolved, the file opened and its contents read,
    [edit_file] hands the autopilot one code-edit Step with the prompt as
    user input and one range on the resolved path: the range given, or the
    range of the entire file computed from the contents read.  It returns
    nothing of the Step's observation, and passes on its exception. *)
Theorem edit_file_runs_edit_step
    (w w1 : World H) (filename prompt fp contents : string)
    (nm descr : option string) (range : option Range) (h1 h2 : H) :
  result (interp (_ensure_absolute_path filename) w) = inr fp ->
  final (interp (_ensure_absolute_path filename) w) = w1 ->
  on_ide (Ide.setFileOpen fp) (host w1) = (inr tt, h1) ->
  on_ide (Ide.readFile fp) h1 = (inr contents, h2) ->
  let s :=
    Gpt35EditCodeStep
      [match range with
       | Some r => mkRangeInFile fp r
       | None => from_entire_file fp contents
       end]
      prompt (name_kwarg nm) descr in
  let o := interp (edit_file from_entire_file filename prompt nm descr range) w in
  let answer :=
    on_autopilot (Autopilot._run_singular_step s) (mkWorld (heap w) h2) in
  steps_run (trace o) = [s]
  /\ result o = match fst answer with inl e => inl e | inr _ => inr tt end
  /\ final o = snd answer.
Proof.
  intros Hres <- Hopen Hread. cbn zeta. rewrite edit_file_outcome. cbn zeta.
  pose proof (ensure_absolute_path_frame w filename) as [Hheap _].
  pose proof (ensure_absolute_path_steps w filename) as Hsteps.
  cbn zeta in Hheap. rewrite Hres, Hopen, Hread, Hheap.
  destruct (on_autopilot _ _) as [r w'] eqn:A. cbn.
  split_and!; [|done..].
  unfold steps_run in *. by rewrite omap_app, Hsteps.
Qed.

(** X7: [edit_file] runs a Step only on a file that the host has opened and
    read: any Step in its trace comes after a resolved path, a successful
    [setFileOpen] and a successful [readFile] of that path. *)
Theorem edit_file_step_needs_open_file
    (w : World H) (filename prompt : string) (nm descr : option string)
    (range : option Range) (s : Step) :
  s ∈ steps_run
        (trace (interp (edit_file from_entire_file filename prompt nm descr
                          range) w)) ->
  exists (fp contents : string) (h1 h2 : H),
    result (interp (_ensure_absolute_path filename) w) = inr fp
    /\ on_ide (Ide.setFileOpen fp)
         (host (final (interp (_ensure_absolute_path filename) w)))
       = (inr tt, h1)
    /\ on_ide (Ide.readFile fp) h1 = (inr contents, h2).
Proof.
  rewrite edit_file_outcome. cbn zeta.
  pose proof (ensure_absolute_path_steps w filename) as Hsteps.
  assert (Hpre : forall t, steps_run t = [] ->
            steps_run (trace (interp (_ensure_absolute_path filename) w) ++ t)
            = []).
  { intros t Ht. unfold steps_run in *. by rewrite omap_app, Hsteps, Ht. }
  destruct (result (interp (_ensure_absolute_path filename) w)) as [e|fp].
  { cbn [trace]. rewrite Hsteps. by intros ?%elem_of_nil. }
  destruct (on_ide (Ide.setFileOpen fp) _) as [[e|[]] h1] eqn:Hopen.
  { cbn [trace]. rewrite Hpre; [|done]. by intros ?%elem_of_nil. }
  destruct (on_ide (Ide.readFile fp) h1) as [[e|contents] h2] eqn:Hread.
  { cbn [trace]. rewrite Hpre; [|done]. by intros ?%elem_of_nil. }
  intros _. by exists fp, contents, h1, h2.
Qed.

(** X8: [append_to_file] sends the host at most one edit, and only an edit
    derived from content it has just read: any edit in its trace is the
    append-edit for a resolved path and the content that a successful
    [readFile] of that path returned. *)
Theorem append_to_file_edit_needs_read
    (w : World H) (filename content : string) (edit : FileSystemEdit) :
  edit ∈ host_edits
           (trace (interp (append_to_file from_append filename content) w)) ->
  exists (fp previous : string) (h1 : H),
    result (interp (_ensure_absolute_path filename) w) = inr fp
    /\ on_ide (Ide.readFile fp)
         (host (final (interp (_ensure_absolute_path filename) w)))
       = (inr previous, h1)
    /\ edit = from_append fp previous content
    /\ host_edits
         (trace (interp (append_to_file from_append filename content) w))
       = [edit].
Proof.
  rewrite append_to_file_outcome. cbn zeta.
  assert (Hedits : host_edits (trace (interp (_ensure_absolute_path filename) w))
                   = []).
  { rewrite ensure_absolute_path_outcome.
    destruct (os_path.isabs filename); [done|].
    by destruct (on_ide Ide.getWorkspaceDirectory (host w)) as [[e|wd] h']. }
  assert (Hpre : forall t,
            host_edits (trace (interp (_ensure_absolute_path filename) w) ++ t)
            = host_edits t).
  { intros t. unfold host_edits in *. by rewrite omap_app, Hedits. }
  destruct (result (interp (_ensure_absolute_path filename) w)) as [e|fp].
  { cbn [trace]. rewrite Hedits. by intros ?%elem_of_nil. }
  destruct (on_ide (Ide.readFile fp) _) as [[e|previous] h1] eqn:Hread.
  { cbn [trace]. rewrite Hpre. by intros ?%elem_of_nil. }
  destruct (on_ide (Ide.applyFileSystemEdit _) h1) as [r h2].
  cbn [trace]. rewrite Hpre. cbn. intros ->%list_elem_of_singleton.
  by exists fp, previous, h1.
Qed.

End RunningSteps.

(** ** Where [config] looks *)

Section ConfigPaths.
Context {H : Type} `{Environment H}.
Import ContinueSDK.

(** The directory part of the two candidate paths: the workspace directory
    followed by one separator, unless it is empty or already ends in one. *)
Lemma config_paths_shape (dir : string) :
  let base :=
    if negb (Py.truthy dir) || Py.endswith dir os_path.sep then dir
    else dir +:+ "/" in
  yaml_path dir = base +:+ ".continue/config.yaml"
  /\ json_path dir = base +:+ ".continue/config.json".
Proof.
  cbn zeta. unfold yaml_path, json_path, os_path.join. cbn [foldl].
  unfold os_path.join_step at 2 4.
  change (Py.startswith ".continue" os_path.sep) with false. cbn match.
  set (base := if negb (Py.truthy dir) || Py.endswith dir os_path.sep
               then dir else dir +:+ "/").
  assert (Hx : (if negb (Py.truthy dir) || Py.endswith dir os_path.sep
                then dir +:+ ".continue"
                else dir +:+ String os_path.sep "" +:+ ".continue")
               = base +:+ ".continue").
  { unfold base.
    destruct (negb (Py.truthy dir) || Py.endswith dir os_path.sep); [done|].
    by rewrite append_assoc. }
  rewrite Hx. unfold os_path.join_step.
  change (Py.startswith "config.yaml" os_path.sep) with false.
  change (Py.startswith "config.json" os_path.sep) with false. cbn match.
  rewrite (truthy_append_r base ".continue" eq_refl).
  rewrite (endswith_append_r base ".continue" os_path.sep eq_refl).
  cbn [negb orb]. change (Py.endswith ".continue" os_path.sep) with false.
  cbn match. by rewrite !append_assoc.
Qed.

(** X9: with [dir] the workspace directory, the first thing [config] asks the
    machine after the directory is whether [.continue/config.yaml] exists
    under [dir], where "under" puts exactly one separator after a
    directory that does not end in one and none after one that does; an
    empty [dir] gives the relative path [.continue/config.yaml]. *)
Theorem config_looks_under_workspace (w : World H) (dir : string) :
  on_os Os.workspace_directory (host w) = inr dir ->
  let base :=
    if negb (Py.truthy dir) || Py.endswith dir os_path.sep then dir
    else dir +:+ "/" in
  exists (answer : Exn + bool) (rest : list event),
    trace (interp config w)
    = Ev (os Os.workspace_directory) (inr dir)
        :: Ev (os (Os.path_exists (base +:+ ".continue/config.yaml"))) answer
        :: rest.
Proof.
  intros Hdir. cbn zeta.
  destruct (config_paths_shape dir) as [<- _].
  unfold config. cbn. rewrite Hdir. cbn.
  destruct (on_os (Os.path_exists (yaml_path dir)) (host w)) as [e|b] eqn:Y.
  - by exists (inl e), [].
  - cbn. by eexists (inr b), _.
Qed.

End ConfigPaths.

(** ** Adding to the chat context *)

Section AddChatContext.
Context {H : Type} `{Environment H}.
Variable more_roles : ChatMessageRole -> bool.
Import ContinueSDK.

(** An index within [-len, len) addresses position [index mod len]. *)
Lemma index_in_range {A} (l : list A) (i : Z) :
  (- Z.of_nat (length l) <= i < Z.of_nat (length l))%Z ->
  Py.index l i = Some (Z.to_nat (i mod Z.of_nat (length l)))
  /\ Z.to_nat (i mod Z.of_nat (length l)) < length l.
Proof.
  intros Hi. unfold Py.index. cbn zeta.
  set (n := Z.of_nat (length l)) in *.
  assert (Hmod : (0 <= i mod n < n)%Z) by (apply Z.mod_pos_bound; lia).
  split; [|lia].
  case_bool_decide as Hnn.
  - by rewrite Z.mod_small.
  - case_bool_decide as Hneg; [|lia].
    rewrite <- (Z_mod_plus_full i 1 n), Z.mod_small by lia.
    f_equal. lia.
Qed.

Lemma index_out_of_range {A} (l : list A) (i : Z) :
  (i < - Z.of_nat (length l) \/ Z.of_nat (length l) <= i)%Z ->
  Py.index l i = None.
Proof.
  intros Hi. unfold Py.index. cbn zeta.
  case_bool_decide; [lia|]. case_bool_decide; [lia|done].
Qed.

(** Everything a call of [add_chat_context] can do. *)
Lemma add_chat_context_outcome
    (w : World H) (content : string) (role : option ChatMessageRole) :
  interp (add_chat_context more_roles content role) w =
    let hist := history (heap w) in
    let role := default add_chat_context_default_role role in
    match Py.index (timeline hist) (current_index hist) with
    | None => mkOutcome (inl IndexError) w []
    | Some i =>
        if is_role more_roles role
        then
          mkOutcome (inr tt)
            (mkWorld
               (set_history (heap w)
                  (mkHistory
                     (alter (append_chat_context (mkChatMessage content role))
                        i (timeline hist))
                     (current_index hist)))
               (host w))
            []
        else mkOutcome (inl ValidationError) w []
    end.
Proof.
  unfold add_chat_context, new_ChatMessage. cbn.
  destruct (Py.index _ _); [|done].
  by destruct (is_role more_roles _).
Qed.

(** X10: with [current_index] within [-len, len) of the timeline and a
    role, given or default, that [ChatMessage] admits, [add_chat_context]
    returns without calling anyone and changes the timeline at one
    position, [current_index mod len] (so a negative index counts from the
    end): the Step of that node gets the message, with that role, at the
    end of its chat context.  The index and the rest of the heap are as
    before. *)
Theorem add_chat_context_in_range
    (w : World H) (content : string) (role : option ChatMessageRole) :
  let hist := history (heap w) in
  let n := Z.of_nat (length (timeline hist)) in
  (- n <= current_index hist < n)%Z ->
  is_role more_roles (default add_chat_context_default_role role) = true ->
  let k := Z.to_nat (current_index hist mod n) in
  let msg := mkChatMessage content
               (default add_chat_context_default_role role) in
  let o := interp (add_chat_context more_roles content role) w in
  result o = inr tt
  /\ trace o = []
  /\ k < length (timeline hist)
  /\ final o
     = mkWorld
         (set_history (heap w)
            (mkHistory (alter (append_chat_context msg) k (timeline hist))
               (current_index hist)))
         (host w)
  /\ forall node : HistoryNode,
       timeline hist !! k = Some node ->
       chat_context (step (append_chat_context msg node))
       = chat_context (step node) ++ [msg].
Proof.
  cbn zeta. intros Hi Hrole. rewrite add_chat_context_outcome. cbn zeta.
  destruct (index_in_range (timeline (history (heap w))) _ Hi) as [-> Hk].
  rewrite Hrole. by split_and!.
Qed.

(** X17: with [current_index] within [-len, len) of the timeline and a
    role, given or default, that [ChatMessage] does not admit,
    [add_chat_context] raises [ValidationError] and changes nothing. *)
Theorem add_chat_context_invalid_role
    (w : World H) (content : string) (role : option ChatMessageRole) :
  let hist := history (heap w) in
  let n := Z.of_nat (length (timeline hist)) in
  (- n <= current_index hist < n)%Z ->
  is_role more_roles (default add_chat_context_default_role role) = false ->
  interp (add_chat_context more_roles content role) w
  = mkOutcome (inl ValidationError) w [].
Proof.
  cbn zeta. intros Hi Hrole. rewrite add_chat_context_outcome. cbn zeta.
  destruct (index_in_range (timeline (history (heap w))) _ Hi) as [-> _].
  by rewrite Hrole.
Qed.

(** X11: with [current_index] outside [-len, len) of the timeline, so always on
    an empty timeline, [add_chat_context] raises [IndexError] and changes
    nothing. *)
Theorem add_chat_context_out_of_range
    (w : World H) (content : string) (role : option ChatMessageRole) :
  let hist := history (heap w) in
  let n := Z.of_nat (length (timeline hist)) in
  (current_index hist < - n \/ n <= current_index hist)%Z ->
  interp (add_chat_context more_roles content role) w
  = mkOutcome (inl IndexError) w [].
Proof.
  cbn zeta. intros Hi. rewrite add_chat_context_outcome. cbn zeta.
  by rewrite (index_out_of_range _ _ Hi).
Qed.

(** X12: two calls in a row, each with a role that [ChatMessage] admits,
    append their two messages, in call order, to the chat context of the
    same node, and leave the other nodes alone. *)
Theorem add_chat_context_twice
    (w : World H) (c1 c2 : string) (r1 r2 : option ChatMessageRole) :
  let hist := history (heap w) in
  let n := Z.of_nat (length (timeline hist)) in
  (- n <= current_index hist < n)%Z ->
  is_role more_roles (default add_chat_context_default_role r1) = true ->
  is_role more_roles (default add_chat_context_default_role r2) = true ->
  let k := Z.to_nat (current_index hist mod n) in
  let m1 := mkChatMessage c1 (default add_chat_context_default_role r1) in
  let m2 := mkChatMessage c2 (default add_chat_context_default_role r2) in
  let o := interp (add_chat_context more_roles c1 r1
                   ≫= fun _ => add_chat_context more_roles c2 r2) w in
  let hist' := history (heap (final o)) in
  result o = inr tt
  /\ length (timeline hist') = length (timeline hist)
  /\ (exists node node' : HistoryNode,
        timeline hist !! k = Some node
        /\ timeline hist' !! k = Some node'
        /\ chat_context (step node') = chat_context (step node) ++ [m1; m2])
  /\ forall j : nat, j <> k -> timeline hist' !! j = timeline hist !! j.
Proof.
  cbn zeta. intros Hi Hr1 Hr2.
  rewrite interp_bind, add_chat_context_outcome. cbn zeta.
  destruct (index_in_range (timeline (history (heap w))) _ Hi) as [Hidx Hk].
  rewrite Hidx, Hr1. cbn [result final trace]. cbn zeta.
  rewrite add_chat_context_outcome.
  cbn [heap history set_history timeline current_index]. cbn zeta.
  assert (Hidx' : Py.index
            (alter (append_chat_context
                      (mkChatMessage c1 (default add_chat_context_default_role r1)))
               (Z.to_nat (current_index (history (heap w))
                          mod Z.of_nat (length (timeline (history (heap w))))))
               (timeline (history (heap w))))
            (current_index (history (heap w)))
          = Some (Z.to_nat (current_index (history (heap w))
                            mod Z.of_nat (length (timeline (history (heap w))))))).
  { unfold Py.index in *. by rewrite length_alter. }
  rewrite Hidx', Hr2. cbn [result final trace heap history set_history timeline].
  destruct (lookup_lt_is_Some_2 _ _ Hk) as [node Hnode].
  split_and!.
  - done.
  - by rewrite !length_alter.
  - exists node, (append_chat_context
                    (mkChatMessage c2 (default add_chat_context_default_role r2))
                    (append_chat_context
                       (mkChatMessage c1 (default add_chat_context_default_role r1))
                       node)).
    split_and!; [done| |].
    + by rewrite !list_lookup_alter_eq, Hnode.
    + cbn. by rewrite <- app_assoc.
  - intros j Hj. by rewrite !list_lookup_alter_ne.
Qed.

End AddChatContext.

(** ** First access, failure and independence of the model clients *)

Section ModelClients.
Context {H : Type} `{Environment H}.
Import Models.

(** X13: the first access of an accessor, outside a running event loop and with
    a host that has the secret, returns a new client: of the accessor's
    class, with the secret the host returned for the accessor's environment
    variable as its API key.  The host was asked for that one secret; the
    client is stored under the accessor's name; the History is untouched. *)
Theorem models_first_access
    (a : accessor) (w : World H) (key : string) (h' : H) :
  models_dict (heap w) !! attrname a = None ->
  loop_running (heap w) = false ->
  on_ide (Ide.getUserSecret (secret_name a)) (host w) = (inr key, h') ->
  let o := interp (access a) w in
  let r := client a (next_object_id (heap w)) key in
  result o = inr r
  /\ api_key r = key
  /\ trace o = [Ev (ide (Ide.getUserSecret (secret_name a))) (inr key)]
  /\ models_dict (heap (final o)) = <[attrname a := r]> (models_dict (heap w))
  /\ next_object_id (heap (final o)) = S (next_object_id (heap w))
  /\ history (heap (final o)) = history (heap w)
  /\ host (final o) = h'.
Proof.
  intros Hmiss Hloop Hkey. cbn zeta. rewrite access_outcome.
  rewrite Hmiss, Hloop, Hkey. cbn. split_and!; try done. by destruct a.
Qed.

(** X14: an access that raises leaves the heap as it was: nothing is stored in
    the instance dictionary and no client is constructed.  It raises only
    for an accessor that is not cached, and has asked the host for a secret
    at most once. *)
Theorem models_failure_not_cached (a : accessor) (w : World H) (e : Exn) :
  result (interp (access a) w) = inl e ->
  heap (final (interp (access a) w)) = heap w
  /\ models_dict (heap w) !! attrname a = None
  /\ secret_fetches (trace (interp (access a) w)) <= 1.
Proof.
  rewrite access_outcome.
  destruct (models_dict (heap w) !! attrname a); [done|].
  destruct (loop_running (heap w)).
  { cbn. intros _. split_and!; [done..|]. apply Nat.le_0_l. }
  destruct (on_ide (Ide.getUserSecret (secret_name a)) (host w))
    as [[e'|key] h']; [|done].
  cbn. intros _. split_and!; [done..|]. apply Nat.le_refl.
Qed.

(** X15: inside a running event loop an accessor that is not cached raises
    [RuntimeError] without asking the host for anything, and an accessor
    that is cached returns its client. *)
Theorem models_running_loop (a : accessor) (w : World H) :
  loop_running (heap w) = true ->
  interp (access a) w =
    match models_dict (heap w) !! attrname a with
    | Some r => mkOutcome (inr r) w []
    | None =>
        mkOutcome (inl (RuntimeError "This event loop is already running"))
          w []
    end.
Proof. intros Hloop. rewrite access_outcome. by rewrite Hloop. Qed.

(** X16: the two accessors do not share anything: when one is accessed for the
    first time and then the other one, each asks for its own secret, they
    get two different objects, and afterwards each name holds its own
    client. *)
Theorem models_accessors_independent
    (a b : accessor) (w : World H) (ra rb : LLM) :
  a <> b ->
  models_dict (heap w) !! attrname a = None ->
  models_dict (heap w) !! attrname b = None ->
  let o1 := interp (access a) w in
  let o2 := interp (access b) (final o1) in
  result o1 = inr ra ->
  result o2 = inr rb ->
  object_id rb = S (object_id ra)
  /\ models_dict (heap (final o2)) !! attrname a = Some ra
  /\ models_dict (heap (final o2)) !! attrname b = Some rb
  /\ secret_fetches (trace o1 ++ trace o2) = 2.
Proof.
  intros Hab Ha Hb. cbn zeta.
  assert (Hname : attrname a <> attrname b) by (by destruct a, b).
  rewrite (access_outcome a w), Ha.
  destruct (loop_running (heap w)); [done|].
  destruct (on_ide (Ide.getUserSecret (secret_name a)) (host w))
    as [[e|ka] h1]; [done|].
  cbn [result final trace]. cbn zeta. intros [= <-].
  rewrite access_outcome. cbn [heap host models_dict loop_running next_object_id].
  rewrite lookup_insert_ne, Hb by done.
  destruct (on_ide (Ide.getUserSecret (secret_name b)) h1)
    as [[e|kb] h2]; [done|].
  cbn [result final trace heap models_dict]. cbn zeta. intros [= <-].
  split_and!.
  - by destruct a, b.
  - by rewrite lookup_insert_ne, lookup_insert_eq.
  - by rewrite lookup_insert_eq.
  - done.
Qed.

End ModelClients.

(** ** The further properties on the in-memory environment *)

Section FurtherOnTheInMemoryEnvironment.
Import ContinueSDK InMemory.

Lemma add_file_carries_resolved_path_witness :
  result (interp (_ensure_absolute_path "notes.txt") demo_world)
  = inr "/ws/notes.txt"
  /\ steps_run
       (trace (interp (add_file false "notes.txt" (Some "hello")) demo_world))
     = [FileSystemEditStep (AddFile "/ws/notes.txt" (Some "hello")) None None].
Proof.
  split; [reflexivity|].
  exact (add_file_carries_resolved_path false demo_world "notes.txt"
           "/ws/notes.txt" "hello" eq_refl).
Defined.

Lemma ensure_absolute_path_result_absolute_witness :
  exists fp : string,
    result (interp (_ensure_absolute_path "notes.txt") demo_world) = inr fp
    /\ os_path.isabs fp = true
    /\ forall w' : World Machine,
         interp (_ensure_absolute_path fp) w' = mkOutcome (inr fp) w' [].
Proof.
  apply (ensure_absolute_path_result_absolute demo_world "notes.txt").
  right. exists "/ws", demo_machine. split; reflexivity.
Defined.

Lemma add_file_delete_file_disagree_witness :
  steps_run
    (trace (interp (add_file false "notes.txt" (Some "hello")) demo_world))
  = [FileSystemEditStep (AddFile "/ws/notes.txt" (Some "hello")) None None]
  /\ steps_run (trace (interp (delete_file "notes.txt") demo_world))
     = [FileSystemEditStep (DeleteFile "notes.txt") None None]
  /\ "/ws/notes.txt" <> "notes.txt".
Proof.
  assert (Hroot : "/ws" <> "") by discriminate.
  exact (add_file_delete_file_disagree false demo_world "notes.txt" "/ws"
           demo_machine "hello" eq_refl eq_refl Hroot).
Defined.

Lemma run_outcome_witness :
  result (@interp Machine echo_environment _
            (run (inr "ls") None None None true) demo_world)
  = inr ("ls" +:+ Py.nl).
Proof.
  destruct (@run_outcome Machine echo_environment demo_world (inr "ls")
              None None None true) as (_ & Htext & _).
  exact (proj1 (Htext ("ls" +:+ Py.nl)
                  (record_step (ShellCommandsStep ["ls"] None None None true)
                     demo_world)
                  eq_refl)).
Defined.

Lemma edit_file_runs_edit_step_witness :
  steps_run
    (trace (interp (edit_file from_entire_file "notes.txt" "add a title"
                      None None None) demo_world))
  = [Gpt35EditCodeStep [from_entire_file "/ws/notes.txt" "hello"]
       "add a title" None None].
Proof.
  exact (proj1 (edit_file_runs_edit_step from_entire_file demo_world demo_world
                  "notes.txt" "add a title" "/ws/notes.txt" "hello"
                  None None None demo_machine demo_machine
                  eq_refl eq_refl eq_refl eq_refl)).
Defined.

Lemma edit_file_step_needs_open_file_witness :
  exists (fp contents : string) (h1 h2 : Machine),
    result (interp (_ensure_absolute_path "notes.txt") demo_world) = inr fp
    /\ on_ide (Ide.setFileOpen fp)
         (host (final (interp (_ensure_absolute_path "notes.txt") demo_world)))
       = (inr tt, h1)
    /\ on_ide (Ide.readFile fp) h1 = (inr contents, h2).
Proof.
  apply (edit_file_step_needs_open_file from_entire_file demo_world
           "notes.txt" "add a title" None None None
           (Gpt35EditCodeStep [from_entire_file "/ws/notes.txt" "hello"]
              "add a title" None None)).
  apply list_elem_of_singleton. reflexivity.
Defined.

Lemma append_to_file_edit_needs_read_witness :
  exists (fp previous : string) (h1 : Machine),
    result (interp (_ensure_absolute_path "notes.txt") demo_world) = inr fp
    /\ on_ide (Ide.readFile fp)
         (host (final (interp (_ensure_absolute_path "notes.txt") demo_world)))
       = (inr previous, h1)
    /\ from_append "/ws/notes.txt" "hello" " world"
       = from_append fp previous " world"
    /\ host_edits
         (trace (interp (append_to_file from_append "notes.txt" " world")
                   demo_world))
       = [from_append "/ws/notes.txt" "hello" " world"].
Proof.
  apply (append_to_file_edit_needs_read from_append demo_world "notes.txt"
           " world" (from_append "/ws/notes.txt" "hello" " world")).
  apply list_elem_of_singleton. reflexivity.
Defined.

Lemma config_looks_under_workspace_witness :
  exists (answer : Exn + bool) (rest : list event),
    trace (interp config demo_world)
    = Ev (os Os.workspace_directory) (inr "/ws")
        :: Ev (os (Os.path_exists "/ws/.continue/config.yaml")) answer
        :: rest.
Proof.
  exact (config_looks_under_workspace demo_world "/ws" eq_refl).
Defined.

Lemma add_chat_context_in_range_witness :
  let o := interp (add_chat_context only_named_roles "noted" (Some "user"))
             last_node_world in
  result o = inr tt
  /\ map (fun node => chat_context (step node))
       (timeline (history (heap (final o))))
     = [[mkChatMessage "listing" "assistant"]; [mkChatMessage "noted" "user"]].
Proof.
  cbn zeta.
  destruct (add_chat_context_in_range only_named_roles last_node_world "noted"
              (Some "user"))
    as (Hres & _ & _ & Hfinal & _); [cbn; lia|reflexivity|].
  split; [exact Hres|]. rewrite Hfinal. reflexivity.
Defined.

Lemma add_chat_context_invalid_role_witness :
  interp (add_chat_context only_named_roles "noted" None) demo_world
  = mkOutcome (inl ValidationError) demo_world []
  /\ interp (add_chat_context only_named_roles "noted" (Some "not-a-role"))
       demo_world
     = mkOutcome (inl ValidationError) demo_world [].
Proof.
  split.
  - apply (add_chat_context_invalid_role only_named_roles demo_world "noted"
             None); [cbn; lia|reflexivity].
  - apply (add_chat_context_invalid_role only_named_roles demo_world "noted"
             (Some "not-a-role")); [cbn; lia|reflexivity].
Defined.

Lemma add_chat_context_out_of_range_witness :
  interp (add_chat_context only_named_roles "noted" None) fresh_world
  = mkOutcome (inl IndexError) fresh_world [].
Proof.
  apply (add_chat_context_out_of_range only_named_roles fresh_world "noted"
           None).
  cbn. lia.
Defined.

Lemma add_chat_context_twice_witness :
  let o := interp (add_chat_context only_named_roles "one" (Some "user")
                   ≫= fun _ =>
                        add_chat_context only_named_roles "two" (Some "system"))
             demo_world in
  result o = inr tt
  /\ length (timeline (history (heap (final o)))) = 2.
Proof.
  cbn zeta.
  destruct (add_chat_context_twice only_named_roles demo_world "one" "two"
              (Some "user") (Some "system"))
    as (Hres & Hlen & _); [cbn; lia|reflexivity|reflexivity|].
  exact (conj Hres Hlen).
Defined.

Lemma models_first_access_witness :
  let o := interp (Models.access Models.Gpt35) demo_world in
  result o = inr (mkLLM 0 OpenAI "sk-key" (Some "gpt-3.5-turbo"))
  /\ trace o = [Ev (ide (Ide.getUserSecret "OPENAI_API_KEY")) (inr "sk-key")].
Proof.
  cbn zeta.
  assert (Hkey : on_ide (Ide.getUserSecret (Models.secret_name Models.Gpt35))
                   (host demo_world) = (inr "sk-key", demo_machine))
    by reflexivity.
  destruct (models_first_access Models.Gpt35 demo_world "sk-key" demo_machine
              eq_refl eq_refl Hkey) as (Hres & _ & Htrace & _).
  exact (conj Hres Htrace).
Defined.

Lemma models_failure_not_cached_witness :
  result (interp (Models.access Models.Starcoder) no_secrets_world)
  = inl (CollaboratorError "no such secret")
  /\ heap (final (interp (Models.access Models.Starcoder) no_secrets_world))
     = heap no_secrets_world.
Proof.
  split; [reflexivity|].
  exact (proj1 (models_failure_not_cached Models.Starcoder no_secrets_world
                  (CollaboratorError "no such secret") eq_refl)).
Defined.

Lemma models_running_loop_witness :
  interp (Models.access Models.Starcoder) looping_world
  = mkOutcome (inl (RuntimeError "This event loop is already running"))
      looping_world [].
Proof.
  exact (models_running_loop Models.Starcoder looping_world eq_refl).
Defined.

Lemma models_accessors_independent_witness :
  let hf := mkLLM 0 HuggingFaceInferenceAPI "hf-token" None in
  let oa := mkLLM 1 OpenAI "sk-key" (Some "gpt-3.5-turbo") in
  let o1 := interp (Models.access Models.Starcoder) demo_world in
  let o2 := interp (Models.access Models.Gpt35) (final o1) in
  object_id oa = S (object_id hf)
  /\ models_dict (heap (final o2)) !! "starcoder" = Some hf
  /\ models_dict (heap (final o2)) !! "gpt35" = Some oa
  /\ secret_fetches (trace o1 ++ trace o2) = 2.
Proof.
  cbn zeta.
  apply (models_accessors_independent Models.Starcoder Models.Gpt35 demo_world
           (mkLLM 0 HuggingFaceInferenceAPI "hf-token" None)
           (mkLLM 1 OpenAI "sk-key" (Some "gpt-3.5-turbo")));
    [discriminate|reflexivity..].
Defined.

End FurtherOnTheInMemoryEnvironment.
